(** * Dashboard.py: flood-risk dashboard, shallow embedding

    The development follows the layout of [src/Dashboard.py]:
    configuration constants, the utility functions ([get_risk_category],
    [get_color], [safe_float_format], [load_latest_data]) and the layout
    section of the script (metrics row, distribution chart, map, table).

    Python values are modelled by [PyVal]; Python floats are IEEE binary64
    numbers, represented by [spec_float] with precision 53 and exponent
    bound 1024; raised exceptions are explicit ([PyResult]). *)

From Stdlib Require Import ZArith Lia List String Ascii Bool Sorted Permutation.
From Stdlib Require Import Floats.SpecFloat.
From stdpp Require Import gmap strings list.

Open Scope Z_scope.

(** ** Binary64 floats *)

Module F64.

Definition prec : Z := 53.
Definition emax : Z := 1024.

Definition of_Z (z : Z) : spec_float := binary_normalize prec emax z 0 false.

Definition add := SFadd prec emax.
Definition sub := SFsub prec emax.
Definition mul := SFmul prec emax.
Definition div := SFdiv prec emax.

Definition ltb := SFltb.
Definition leb := SFleb.
Definition gtb (a b : spec_float) : bool := SFltb b a.
Definition geb (a b : spec_float) : bool := SFleb b a.

Definition is_nan (f : spec_float) : bool :=
  match f with S754_nan => true | _ => false end.

(** Truncation toward zero, Python's [int(f)] on a finite float. *)
Definition trunc (f : spec_float) : option Z :=
  match f with
  | S754_zero _ => Some 0
  | S754_finite s m e =>
      let a := match e with
               | Z0 => Zpos m
               | Zpos _ => Z.shiftl (Zpos m) e
               | Zneg _ => Z.shiftr (Zpos m) (- e)
               end in
      Some (if s then - a else a)
  | _ => None
  end.

(** The order of [SFcompare] is the lexicographic order of this key
    (class, exponent, mantissa), negated on the negative side. *)
Definition key (f : spec_float) : Z * Z * Z :=
  match f with
  | S754_nan => (0, 0, 0)
  | S754_zero _ => (0, 0, 0)
  | S754_infinity true => (-2, 0, 0)
  | S754_infinity false => (2, 0, 0)
  | S754_finite true m e => (-1, - e, Zneg m)
  | S754_finite false m e => (1, e, Zpos m)
  end.

Definition lex3 (x y : Z * Z * Z) : comparison :=
  let '(a1, b1, c1) := x in
  let '(a2, b2, c2) := y in
  match a1 ?= a2 with
  | Eq => match b1 ?= b2 with
          | Eq => c1 ?= c2
          | c => c
          end
  | c => c
  end.

Definition lex_lt (x y : Z * Z * Z) : Prop :=
  x.1.1 < y.1.1 \/
  (x.1.1 = y.1.1 /\ (x.1.2 < y.1.2 \/ (x.1.2 = y.1.2 /\ x.2 < y.2))).

Definition lex_le (x y : Z * Z * Z) : Prop := lex_lt x y \/ x = y.

End F64.

(** ** Python values, exceptions and results *)

Inductive exn : Type :=
  | TypeError
  | ValueError
  | OverflowError
  | OtherException (msg : string).

Inductive PyResult (A : Type) : Type :=
  | Ok (a : A)
  | Raise (e : exn).
Arguments Ok {A} a.
Arguments Raise {A} e.

#[global] Instance PyResult_ret : MRet PyResult := fun _ a => Ok a.
#[global] Instance PyResult_bind : MBind PyResult := fun _ _ f m =>
  match m with
  | Ok a => f a
  | Raise e => Raise e
  end.
#[global] Instance PyResult_fmap : FMap PyResult := fun _ _ f m =>
  match m with
  | Ok a => Ok (f a)
  | Raise e => Raise e
  end.

(** [try: body except (classes): handler] for a handler that does not use
    the exception object. *)
Definition try_except {A} (body : PyResult A) (catches : exn -> bool)
    (handler : PyResult A) : PyResult A :=
  match body with
  | Ok a => Ok a
  | Raise e => if catches e then handler else Raise e
  end.

(** [except (TypeError, ValueError)] *)
Definition TypeError_or_ValueError (e : exn) : bool :=
  match e with
  | TypeError | ValueError => true
  | _ => false
  end.

(** [except Exception] and the bare [except:] *)
Definition any_Exception (e : exn) : bool := true.

(** The values a score cell can hold: [None], a float, an int, a string,
    or some other object without a float conversion (a list, a dict). *)
Inductive PyVal : Type :=
  | PyNone
  | PyFloat (f : spec_float)
  | PyInt (z : Z)
  | PyStr (s : string)
  | PyObject.

(** *** The builtin [float(str)] on ASCII text

    Surrounding whitespace is stripped; underscores may separate digits;
    the rest is an optional sign followed by [inf], [infinity], [nan]
    (any case) or a decimal number with optional fraction and exponent.
    The decimal value is rounded to the nearest binary64 number. *)
Module FloatStr.

Definition is_space (c : ascii) : bool :=
  let n := nat_of_ascii c in
  ((9 <=? n) && (n <=? 13) || (28 <=? n) && (n <=? 32))%nat.

Definition is_digit (c : ascii) : bool :=
  let n := nat_of_ascii c in ((48 <=? n) && (n <=? 57))%nat.

Definition digit_val (c : ascii) : Z := Z.of_nat (nat_of_ascii c) - 48.

Definition lower (c : ascii) : ascii :=
  let n := nat_of_ascii c in
  if ((65 <=? n) && (n <=? 90))%nat then ascii_of_nat (n + 32) else c.

Fixpoint lstrip (l : list ascii) : list ascii :=
  match l with
  | c :: r => if is_space c then lstrip r else l
  | [] => []
  end.

Definition strip (l : list ascii) : list ascii :=
  rev (lstrip (rev (lstrip l))).

(** Underscores are allowed only between two digits; they are removed. *)
Fixpoint drop_underscores (prev : option ascii) (l : list ascii)
    : option (list ascii) :=
  match l with
  | [] => match prev with
          | Some "_"%char => None
          | _ => Some []
          end
  | c :: r =>
      if Ascii.eqb c "_" then
        match prev with
        | Some p => if is_digit p then drop_underscores (Some c) r else None
        | None => None
        end
      else
        match prev with
        | Some "_"%char =>
            if is_digit c then cons c <$> drop_underscores (Some c) r else None
        | _ => cons c <$> drop_underscores (Some c) r
        end
  end.

(** Leading digits of [l] and what follows them. *)
Fixpoint span_digits (l : list ascii) : list ascii * list ascii :=
  match l with
  | c :: r => if is_digit c
              then let '(d, rest) := span_digits r in (c :: d, rest)
              else ([], l)
  | [] => ([], [])
  end.

Definition digits_val (d : list ascii) : Z :=
  fold_left (fun acc c => 10 * acc + digit_val c) d 0.

Definition take_sign (l : list ascii) : bool * list ascii :=
  match l with
  | "-"%char :: r => (true, r)
  | "+"%char :: r => (false, r)
  | _ => (false, l)
  end.

(** sign * mantissa * 10^exponent, correctly rounded. *)
Definition round_decimal (neg : bool) (m : Z) (e : Z) : spec_float :=
  match m with
  | Zpos _ =>
      if 0 <=? e then
        match m * 10 ^ e with
        | Zpos n => binary_round F64.prec F64.emax neg n 0
        | _ => S754_zero neg
        end
      else
        let d := 10 ^ (- e) in
        let s := Z.max 0 (Z.log2 d - Z.log2 m + 64) in
        let '(q, r) := Z.div_eucl (Z.shiftl m s) d in
        let q' := if r =? 0 then q else Z.lor q 1 in
        match q' with
        | Zpos n => binary_round F64.prec F64.emax neg n (- s)
        | _ => S754_zero neg
        end
  | _ => S754_zero neg
  end.

Definition parse_special (neg : bool) (l : list ascii) : option spec_float :=
  let w := string_of_list_ascii (map lower l) in
  if String.eqb w "inf" || String.eqb w "infinity" then Some (S754_infinity neg)
  else if String.eqb w "nan" then Some S754_nan
  else None.

Definition parse_exponent (l : list ascii) : option Z :=
  match l with
  | [] => Some 0
  | c :: r =>
      if Ascii.eqb (lower c) "e" then
        let '(neg, r') := take_sign r in
        let '(d, rest) := span_digits r' in
        match d, rest with
        | _ :: _, [] => Some (if neg then - digits_val d else digits_val d)
        | _, _ => None
        end
      else None
  end.

Definition parse_decimal (neg : bool) (l : list ascii) : option spec_float :=
  let '(ip, r1) := span_digits l in
  let '(fp, r2) := match r1 with
                   | "."%char :: r => span_digits r
                   | _ => ([], r1)
                   end in
  match ip ++ fp with
  | [] => None
  | ds =>
      e ← parse_exponent r2;
      Some (round_decimal neg (digits_val ds) (e - Z.of_nat (length fp)))
  end.

Definition parse (s : string) : option spec_float :=
  l ← drop_underscores None (strip (list_ascii_of_string s));
  let '(neg, body) := take_sign l in
  match parse_special neg body with
  | Some f => Some f
  | None => parse_decimal neg body
  end.

End FloatStr.

(** The builtin [float(x)]. *)
Definition py_float (x : PyVal) : PyResult spec_float :=
  match x with
  | PyNone => Raise TypeError
  | PyFloat f => Ok f
  | PyInt z =>
      match F64.of_Z z with
      | S754_infinity _ => Raise OverflowError
      | f => Ok f
      end
  | PyStr s =>
      match FloatStr.parse s with
      | Some f => Ok f
      | None => Raise ValueError
      end
  | PyObject => Raise TypeError
  end.

Definition is_None (x : PyVal) : bool :=
  match x with PyNone => true | _ => false end.

(** ** Configuration *)

(** [ALERT_THRESHOLD = 1.0] *)
Definition ALERT_THRESHOLD : spec_float := F64.of_Z 1.

Definition DATA_DIR : string := "flood_risk_outputs".

(** A dict iterated in insertion order: an association list. *)
Definition RISK_CATEGORIES : list (string * (Z * Z)) :=
  [ ("No Risk", (0, 2));
    ("Low Risk", (2, 4));
    ("Moderate Risk", (4, 6));
    ("High Risk", (6, 8));
    ("Extreme Risk", (8, 10)) ].

(** A dict used only through lookups: a finite map. *)
Definition COLOR_PALETTE : gmap string string :=
  list_to_map
    [ ("No Risk", "#00FF7F");
      ("Low Risk", "#FFD700");
      ("Moderate Risk", "#FF8C00");
      ("High Risk", "#FF4500");
      ("Extreme Risk", "#FF0000");
      ("No Data", "#A9A9A9");
      ("Invalid Data", "#696969") ].

Definition GRADIENT_COLORS : list string :=
  [ "#00FF7F"; "#FFD700"; "#FF8C00"; "#FF4500"; "#FF0000" ].

(** [d[k]]; a missing key raises [KeyError]. *)
Definition subscript (d : gmap string string) (k : string) : PyResult string :=
  match d !! k with
  | Some v => Ok v
  | None => Raise (OtherException "KeyError")
  end.

(** ** Utility functions *)

(** [lower <= score < upper] for int bounds and a float score.  Python
    compares an int with a float by value; the bounds used here are small
    integers, which [F64.of_Z] converts without rounding. *)
Definition in_range (lower upper : Z) (score : spec_float) : bool :=
  F64.leb (F64.of_Z lower) score && F64.ltb score (F64.of_Z upper).

(** The [for] loop of [get_risk_category]: the first item whose range
    holds the score. *)
Fixpoint first_category (items : list (string * (Z * Z))) (score : spec_float)
    : option string :=
  match items with
  | [] => None
  | (category, (lower, upper)) :: rest =>
      if in_range lower upper score then Some category
      else first_category rest score
  end.

Definition get_risk_category (score : PyVal) : PyResult string :=
  if is_None score then Ok "No Data"
  else
    try_except
      (score ← py_float score;
       match first_category RISK_CATEGORIES score with
       | Some category => Ok category
       | None => Ok "Invalid Data"
       end)
      TypeError_or_ValueError
      (Ok "Invalid Data").

(** Formatted text is kept symbolic: [Fixed p f suffix] stands for the
    float [f] printed with [p] decimals and followed by [suffix]. *)
Inductive text : Type :=
  | NA
  | Num (n : nat)
  | Fixed (precision : nat) (f : spec_float) (suffix : string).

Definition safe_float_format (value : PyVal) (precision : nat) : PyResult text :=
  if is_None value then Ok NA
  else
    try_except
      (f ← py_float value; Ok (Fixed precision f ""))
      TypeError_or_ValueError
      (Ok NA).

(** *** Data frames and the data directory *)

(** A geometry is carried around but never inspected by the script. *)
Inductive geometry : Type := Geometry (wkt : string).

(** A record as parsed from the file. *)
Record feature : Type := Feature {
  feature_score : PyVal;
  feature_geometry : geometry
}.

(** What [gpd.read_file] returns: the column names and the records. *)
Record parsed : Type := Parsed {
  parsed_columns : list string;
  parsed_features : list feature
}.

(** A record of the loaded frame, with its derived category. *)
Record zone : Type := Zone {
  risk_score : PyVal;
  zone_geometry : geometry;
  risk_category : string
}.

Record GeoDataFrame : Type := Frame {
  columns : list string;
  zones : list zone
}.

(** A directory entry: its name, what [os.path.getsize] and
    [os.path.getctime] report for it (the time in a discrete unit), and
    what [gpd.read_file] does on it. *)
Record file : Type := File {
  name : string;
  getsize : Z;
  getctime : Z;
  read_file : PyResult parsed
}.

(** [DATA_DIR] as the script sees it: whether it exists, and its entries
    in [os.listdir] order. *)
Record filesystem : Type := FS {
  exists_DATA_DIR : bool;
  listdir : list file
}.

Inductive message : Type :=
  | Msg (s : string)
  | MsgExn (prefix : string) (e : exn).

Definition endswith (s suffix : string) : bool :=
  let n := String.length s in
  let m := String.length suffix in
  (m <=? n)%nat && String.eqb (substring (n - m) m s) suffix.

(** The comprehension of lines 86-87. *)
Definition candidate_files (fs : filesystem) : list file :=
  filter (fun f => endswith (name f) ".geojson" && (0 <? getsize f)) (listdir fs).

(** [max(iterable, key=...)]: the first item with the greatest key. *)
Fixpoint max_by_key {A} (key : A -> Z) (best : A) (rest : list A) : A :=
  match rest with
  | [] => best
  | x :: rest' => max_by_key key (if key best <? key x then x else best) rest'
  end.

(** Lines 86-92: the selected file, when the directory exists. *)
Definition latest_file (fs : filesystem) : option file :=
  match candidate_files fs with
  | [] => None
  | f :: rest => Some (max_by_key getctime f rest)
  end.

Definition snapshot : Type :=
  option GeoDataFrame * option Z * option string * option message.

Definition load_latest_data (fs : filesystem) : snapshot :=
  let body : PyResult snapshot :=
    if negb (exists_DATA_DIR fs) then
      Ok (None, None, None, Some (Msg "Data directory not found"))
    else
      match latest_file fs with
      | None => Ok (None, None, None, Some (Msg "No valid GeoJSON files found"))
      | Some latest =>
          data ← read_file latest;
          let required_cols := ["risk_score"; "geometry"] in
          if negb (forallb (fun col => bool_decide (col ∈ parsed_columns data))
                     required_cols) then
            Ok (None, None, None, Some (Msg "Missing required columns in data"))
          else
            frame ←
              (if bool_decide ("risk_score" ∈ parsed_columns data) then
                 cats ← mapM (fun ft => get_risk_category (feature_score ft))
                          (parsed_features data);
                 Ok (Frame (parsed_columns data ++ ["risk_category"])
                       (zip_with (fun ft c =>
                                    Zone (feature_score ft) (feature_geometry ft) c)
                          (parsed_features data) cats))
               else
                 Ok (Frame (parsed_columns data)
                       (map (fun ft =>
                               Zone (feature_score ft) (feature_geometry ft) "")
                          (parsed_features data))));
            let update_time := getctime latest in
            Ok (Some frame, Some update_time, Some (name latest), None)
      end in
  match body with
  | Ok result => result
  | Raise e => (None, None, None, Some (MsgExn "Error loading data: " e))
  end.

(** *** The gradient colormap

    [LinearColormap] is imported from an external package and is not part
    of src/.  The functions of the script take the colormap as a
    parameter; this module is the instance used to run them. *)
Module Colormap.

Definition hex_val (c : ascii) : option Z :=
  let n := Z.of_nat (nat_of_ascii c) in
  if (48 <=? n) && (n <=? 57) then Some (n - 48)
  else if (97 <=? n) && (n <=? 102) then Some (n - 87)
  else if (65 <=? n) && (n <=? 70) then Some (n - 55)
  else None.

Definition channel (a b : ascii) : option spec_float :=
  h ← hex_val a;
  l ← hex_val b;
  Some (F64.div (F64.of_Z (16 * h + l)) (F64.of_Z 255)).

(** A color [#RRGGBB] as (r, g, b, a) floats between 0 and 1. *)
Definition parse_color (c : string) : PyResult (list spec_float) :=
  match list_ascii_of_string c with
  | ["#"%char; r1; r2; g1; g2; b1; b2] =>
      match channel r1 r2, channel g1 g2, channel b1 b2 with
      | Some r, Some g, Some b => Ok [r; g; b; F64.of_Z 1]
      | _, _, _ => Raise ValueError
      end
  | _ => Raise ValueError
  end.

(** The stops: [vmin + (vmax - vmin) * i * 1.0 / (n - 1)]. *)
Definition index (vmin vmax : Z) (n : nat) : list spec_float :=
  map (fun i : nat =>
         F64.add (F64.of_Z vmin)
           (F64.div (F64.mul (F64.of_Z ((vmax - vmin) * Z.of_nat i)) (F64.of_Z 1))
              (F64.of_Z (Z.of_nat n - 1))))
    (seq 0 n).

(** [l[i]], a negative [i] counting from the end. *)
Definition item {A} (l : list A) (i : Z) : PyResult A :=
  let j := if i <? 0 then i + Z.of_nat (length l) else i in
  if j <? 0 then Raise (OtherException "IndexError")
  else match l !! Z.to_nat j with
       | Some a => Ok a
       | None => Raise (OtherException "IndexError")
       end.

Definition rgba_floats_tuple (idx : list spec_float)
    (colors : list (list spec_float)) (x : spec_float)
    : PyResult (list spec_float) :=
  first ← item idx 0;
  last ← item idx (-1);
  if F64.leb x first then item colors 0
  else if F64.geb x last then item colors (-1)
  else
    let i := Z.of_nat (length (filter (fun u => F64.ltb u x = true) idx)) in
    lo ← item idx (i - 1);
    hi ← item idx i;
    p ← (if F64.ltb lo hi then
           Ok (F64.div (F64.mul (F64.sub x lo) (F64.of_Z 1)) (F64.sub hi lo))
         else if SFeqb lo hi then Ok (F64.of_Z 1)
         else Raise ValueError);
    c_lo ← item colors (i - 1);
    c_hi ← item colors i;
    Ok (zip_with (fun a b =>
                    F64.add (F64.mul (F64.sub (F64.of_Z 1) p) a) (F64.mul p b))
          c_lo c_hi).

(** [255.9999] *)
Definition scale : spec_float := F64.div (F64.of_Z 2559999) (F64.of_Z 10000).

(** [int(u * 255.9999)] *)
Definition to_byte (u : spec_float) : PyResult Z :=
  match F64.mul u scale with
  | S754_nan => Raise ValueError
  | S754_infinity _ => Raise OverflowError
  | f => match F64.trunc f with
         | Some z => Ok z
         | None => Raise ValueError
         end
  end.

Definition hex_digit (z : Z) : ascii :=
  ascii_of_nat (Z.to_nat (if z <? 10 then 48 + z else 87 + z)).

(** [%02x] of a channel value between 0 and 255. *)
Definition hex2 (z : Z) : string :=
  String (hex_digit (z / 16)) (String (hex_digit (z mod 16)) EmptyString).

Definition rgba_hex_str (bytes : list Z) : string :=
  String "#" (foldr (fun z acc => hex2 z +:+ acc) EmptyString bytes).

(** Modelled from the spec: the colormap class of the external package,
    which section 4.4 describes as a linear interpolation across the
    gradient stops evenly spaced over [vmin, vmax], a piecewise-linear RGB
    blend between adjacent stops.  The color is written [#rrggbbaa], as
    the package does. *)
Definition LinearColormap (colors : list string) (vmin vmax : Z)
    (x : spec_float) : PyResult string :=
  if (length colors <? 2)%nat then Raise ValueError
  else
    parsed ← mapM parse_color colors;
    floats ← rgba_floats_tuple (index vmin vmax (length colors)) parsed x;
    bytes ← mapM to_byte floats;
    Ok (rgba_hex_str bytes).

End Colormap.

(** ** The script, over its external collaborators *)

(** What the page shows, in order of appearance.  Labels and headings
    are written without their pictographs. *)
Inductive metric_id : Type := TotalZones | HighestRisk | Area | AlertZones.

Record shape : Type := Shape {
  shape_geometry : geometry;
  fillColor : string;
  tooltip_score : text;
  tooltip_category : string
}.

Record table_row : Type := Row {
  risk_score_display : text;
  area_km2 : spec_float;
  row_category : option string
}.

Inductive widget : Type :=
  | st_markdown (heading : string)
  | st_metric (id : metric_id) (value : text)
  | st_bar_chart (counts : list (string * nat))
  | folium_static (shapes : list shape)
  | st_dataframe (rows : list table_row)
  | st_error (msg : message)
  | st_warning (msg : string).

(** A script run: the widgets shown so far, and a value or the exception
    that stopped the run. *)
Definition Script (A : Type) : Type := list widget -> list widget * PyResult A.

#[global] Instance Script_ret : MRet Script := fun _ a page => (page, Ok a).
#[global] Instance Script_bind : MBind Script := fun _ _ f m page =>
  match m page with
  | (page', Ok a) => f a page'
  | (page', Raise e) => (page', Raise e)
  end.

Definition show (w : widget) : Script unit := fun page => (page ++ [w], Ok tt).

Definition eval {A} (r : PyResult A) : Script A := fun page => (page, r).

(** [try: body except ...: handler]; what [body] showed before raising
    stays on the page. *)
Definition try_catch {A} (body : Script A) (catches : exn -> bool)
    (handler : exn -> Script A) : Script A := fun page =>
  match body page with
  | (page', Ok a) => (page', Ok a)
  | (page', Raise e) => if catches e then handler e page' else (page', Raise e)
  end.

(** [max(floats)] for a non-empty list: the first greatest item. *)
Fixpoint py_max (best : spec_float) (rest : list spec_float) : spec_float :=
  match rest with
  | [] => best
  | x :: rest' => py_max (if F64.gtb x best then x else best) rest'
  end.

(** [sum(1 for x in scores if x is not None and float(x) > ALERT_THRESHOLD)] *)
Fixpoint alert_count (scores : list PyVal) : PyResult nat :=
  match scores with
  | [] => Ok 0%nat
  | x :: rest =>
      hit ← (if negb (is_None x) then
               f ← py_float x; Ok (F64.gtb f ALERT_THRESHOLD)
             else Ok false);
      n ← alert_count rest;
      Ok (if hit : bool then S n else n)
  end.

(** [Series.value_counts()]: occurrences per distinct value. *)
Definition value_counts (labels : list string) : gmap string nat :=
  foldr (fun c m => <[c := S (default 0%nat (m !! c))]> m) ∅ labels.

(** [Series.reindex(index, fill_value=0)] *)
Definition reindex (counts : gmap string nat) (index : list string)
    : list (string * nat) :=
  map (fun c => (c, default 0%nat (counts !! c))) index.

Definition all_categories : list string :=
  map fst RISK_CATEGORIES ++ ["No Data"; "Invalid Data"].

Definition risk_counts (data : GeoDataFrame) : list (string * nat) :=
  reindex (value_counts (map risk_category (zones data))) all_categories.

(** The sort key of the table: [float(x) if x is not None else -1]. *)
Definition sort_key (x : PyVal) : PyResult spec_float :=
  if negb (is_None x) then py_float x else Ok (F64.of_Z (-1)).

(** [a] may stand before [b] in descending order; NaN keys go last. *)
Definition key_before (a b : spec_float) : bool :=
  if F64.is_nan b then true
  else if F64.is_nan a then false
  else F64.geb a b.

Fixpoint insert_desc {A} (x : spec_float * A) (l : list (spec_float * A))
    : list (spec_float * A) :=
  match l with
  | [] => [x]
  | y :: rest =>
      if key_before (fst x) (fst y) then x :: l else y :: insert_desc x rest
  end.

(** [sort_values(key, ascending=False)] on rows paired with their key.
    Rows with equal keys keep their order here; pandas does not fix it. *)
Definition sort_values_desc {A} (l : list (spec_float * A)) : list (spec_float * A) :=
  foldr insert_desc [] l.

(** Lines 351-357: the rows of the table, in display order. *)
Definition display_data (data : GeoDataFrame) : PyResult (list zone) :=
  if bool_decide ("risk_score" ∈ columns data) then
    keys ← mapM (fun z => sort_key (risk_score z)) (zones data);
    Ok (map snd (sort_values_desc (zip keys (zones data))))
  else Ok (zones data).

Section Dashboard.

(** [LinearColormap(colors, vmin=.., vmax=..)(x)] of the colormap package. *)
Variable LinearColormap : list string -> Z -> Z -> spec_float -> PyResult string.

(** [GeoSeries.area] of the geometry package, and [Series.sum]. *)
Variable GeoSeries_area : list geometry -> PyResult (list spec_float).
Variable Series_sum : list spec_float -> spec_float.

Definition get_color (score : PyVal) : PyResult string :=
  if is_None score then subscript COLOR_PALETTE "No Data"
  else
    try_except
      (score ← py_float score;
       if F64.ltb score (F64.of_Z 0) || F64.gtb score (F64.of_Z 10) then
         subscript COLOR_PALETTE "Invalid Data"
       else
         LinearColormap GRADIENT_COLORS 0 10 score)
      TypeError_or_ValueError
      (subscript COLOR_PALETTE "Invalid Data").

(** *** Metrics row (lines 274-294) *)

Definition total_zones_metric (data : GeoDataFrame) : Script unit :=
  show (st_metric TotalZones (Num (length (zones data)))).

Definition highest_risk_metric (data : GeoDataFrame) : Script unit :=
  let valid_scores :=
    filter (fun x => is_None x = false) (map risk_score (zones data)) in
  try_catch
    (valid_scores ← eval (mapM py_float valid_scores);
     let max_risk := match valid_scores with
                     | x :: rest => PyFloat (py_max x rest)
                     | [] => PyInt 0
                     end in
     shown ← eval (safe_float_format max_risk 1);
     show (st_metric HighestRisk shown))
    any_Exception
    (fun _ => show (st_metric HighestRisk NA)).

Definition area_metric (data : GeoDataFrame) : Script unit :=
  try_catch
    (area ← (if negb (bool_decide (zones data = [])) then
               areas ← eval (GeoSeries_area (map zone_geometry (zones data)));
               mret (F64.div (Series_sum areas) (F64.of_Z 1000000))
             else mret (F64.of_Z 0));
     show (st_metric Area (Fixed 2 area " km2")))
    any_Exception
    (fun _ => show (st_metric Area NA)).

(** No [try] around this one. *)
Definition alert_zones_metric (data : GeoDataFrame) : Script unit :=
  alert_count ← eval (alert_count (map risk_score (zones data)));
  show (st_metric AlertZones (Num alert_count)).

(** *** Distribution chart (lines 297-304) *)

Definition distribution_chart (data : GeoDataFrame) : Script unit :=
  if bool_decide ("risk_category" ∈ columns data) then
    show (st_markdown "Risk Distribution");;
    try_catch
      (show (st_bar_chart (risk_counts data)))
      any_Exception
      (fun e => show (st_error (MsgExn "Could not display risk distribution: " e)))
  else mret tt.

(** *** Map (lines 307-346) *)

Definition map_shape (z : zone) : PyResult shape :=
  shown ← safe_float_format (risk_score z) 1;
  fill ← get_color (risk_score z);
  Ok (Shape (zone_geometry z) fill shown (risk_category z)).

Definition risk_map (data : GeoDataFrame) : Script unit :=
  show (st_markdown "Live Risk Map");;
  try_catch
    (shapes ← eval (mapM map_shape (zones data));
     show (folium_static shapes))
    any_Exception
    (fun e => show (st_error (MsgExn "Map rendering error: " e))).

(** *** Table (lines 349-384) *)

Definition table_rows (rows : list zone) (with_category : bool)
    : PyResult (list table_row) :=
  areas ← GeoSeries_area (map zone_geometry rows);
  shown ← mapM (fun z => if negb (is_None (risk_score z))
                         then safe_float_format (risk_score z) 1
                         else Ok NA) rows;
  Ok (zip_with (fun '(z, s) a =>
                  Row s (F64.div a (F64.of_Z 1000000))
                    (if with_category then Some (risk_category z) else None))
        (zip rows shown) areas).

Definition details_table (data : GeoDataFrame) : Script unit :=
  show (st_markdown "Risk Zone Details");;
  try_catch
    (sorted ← eval (display_data data);
     rows ← eval (table_rows sorted (bool_decide ("risk_category" ∈ columns data)));
     show (st_dataframe rows))
    any_Exception
    (fun e => show (st_error (MsgExn "Data display error: " e))).

(** *** Main dashboard content (lines 271-386) *)

Definition main_content (data : option GeoDataFrame) : Script unit :=
  match data with
  | Some data =>
      if negb (bool_decide (zones data = [])) then
        show (st_markdown "Risk Overview");;
        total_zones_metric data;;
        highest_risk_metric data;;
        area_metric data;;
        alert_zones_metric data;;
        distribution_chart data;;
        risk_map data;;
        details_table data
      else show (st_warning "No valid risk data available in the loaded file.")
  | None => show (st_warning "No valid risk data available in the loaded file.")
  end.

End Dashboard.

(** ** Vocabulary of the statements *)

(** The score [s] is outside the range of an item of [RISK_CATEGORIES]. *)
Definition outside (s : spec_float) (item : string * (Z * Z)) : Prop :=
  in_range item.2.1 item.2.2 s = false.

(** A file passes the filter of lines 86-87. *)
Definition qualifies (f : file) : Prop :=
  endswith (name f) ".geojson" = true /\ 0 < getsize f.

(** Occurrences of [c] in [labels]. *)
Fixpoint occurrences (c : string) (labels : list string) : nat :=
  match labels with
  | [] => 0%nat
  | x :: rest => ((if bool_decide (x = c) then 1 else 0) + occurrences c rest)%nat
  end.

(** The order in which sorted rows follow each other. *)
Definition key_order {A} (x y : spec_float * A) : Prop :=
  key_before (fst x) (fst y) = true.

(** Rows with an absent score stand after every row whose score is a
    number satisfying [P]. *)
Definition absent_after (P : spec_float -> Prop) (rows : list zone) : Prop :=
  forall i j zi zj s,
    rows !! i = Some zi -> rows !! j = Some zj ->
    risk_score zi = PyNone -> py_float (risk_score zj) = Ok s -> P s ->
    (j < i)%nat.

(** Rows are in descending order of their sort key, NaN keys last. *)
Definition descending (rows : list zone) : Prop :=
  forall i j zi zj ki kj,
    rows !! i = Some zi -> rows !! j = Some zj -> (i < j)%nat ->
    sort_key (risk_score zi) = Ok ki -> sort_key (risk_score zj) = Ok kj ->
    key_before ki kj = true.

Definition keyed (p : spec_float * zone) : Prop :=
  sort_key (risk_score p.2) = Ok p.1.

(** A run that raised nothing. *)
Definition completes (run : list widget * PyResult unit) : Prop :=
  run.2 = Ok tt.

Definition is_chart_map_or_table (w : widget) : bool :=
  match w with
  | st_bar_chart _ | folium_static _ | st_dataframe _ => true
  | _ => false
  end.

(** ** Sample inputs *)

(** A directory with an old file, a newer one, a still newer empty one and
    a file of another kind. *)
Definition sample_records : parsed :=
  Parsed ["risk_score"; "geometry"] [Feature (PyFloat (F64.of_Z 3)) (Geometry "POLYGON EMPTY")].

Definition sample_dir : filesystem :=
  FS true
    [ File "old.geojson" 10 5 (Ok sample_records);
      File "new.geojson" 7 9 (Ok sample_records);
      File "empty.geojson" 0 20 (Raise (OtherException "DataSourceError"));
      File "notes.txt" 3 30 (Raise (OtherException "DataSourceError")) ].

Definition sample_frame : GeoDataFrame :=
  Frame ["risk_score"; "geometry"; "risk_category"]
    [Zone (PyFloat (F64.of_Z 3)) (Geometry "POLYGON EMPTY") "Low Risk"].

Definition unsorted_frame : GeoDataFrame :=
  Frame ["risk_score"; "geometry"; "risk_category"]
    [ Zone (PyInt 3) (Geometry "A") "Low Risk";
      Zone PyNone (Geometry "B") "No Data";
      Zone (PyFloat (F64.of_Z 7)) (Geometry "C") "High Risk" ].


(** A file whose single record has the text "abc" as score. *)
Definition text_score_dir : filesystem :=
  FS true
    [ File "zones.geojson" 512 1
        (Ok (Parsed ["risk_score"; "geometry"]
               [Feature (PyStr "abc") (Geometry "POLYGON EMPTY")])) ].

Definition text_score_frame : GeoDataFrame :=
  Frame ["risk_score"; "geometry"; "risk_category"]
    [Zone (PyStr "abc") (Geometry "POLYGON EMPTY") "Invalid Data"].

(** The scenario of two files. *)
Section Scenario.

Variables T1 T2 : Z.
Variables g1 g2 g3 : geometry.
Variable read_a : PyResult parsed.

(** Scores 1, 5, 9 as ints or as floats. *)
Definition number (as_float : bool) (n : Z) : PyVal :=
  if as_float then PyFloat (F64.of_Z n) else PyInt n.

Definition scenario_records (as_float : bool) : parsed :=
  Parsed ["risk_score"; "geometry"]
    [ Feature (number as_float 1) g1;
      Feature (number as_float 5) g2;
      Feature (number as_float 9) g3 ].

(** [a] (created at T1, size 0) and [b] (created at T2, size 512, three
    records), both with the extension [ext]. *)
Definition scenario (ext : string) (as_float : bool) : filesystem :=
  FS true
    [ File ("a" +:+ ext) 0 T1 read_a;
      File ("b" +:+ ext) 512 T2 (Ok (scenario_records as_float)) ].

(** The claim of the scenario for the extension [ext]. *)
Definition scenario_outcome (ext : string) (as_float : bool) : Prop :=
  exists latest data,
    latest_file (scenario ext as_float) = Some latest /\
    name latest = "b" +:+ ext /\
    load_latest_data (scenario ext as_float)
      = (Some data, Some T2, Some ("b" +:+ ext), None) /\
    map risk_category (zones data) = ["No Risk"; "Moderate Risk"; "Extreme Risk"] /\
    alert_count (map risk_score (zones data)) = Ok 2%nat.

End Scenario.

(** ** The script from data loading on (lines 241-268)

    The page before the main content: the refresh button, the error of a
    failed load, and the status row. *)

(** The values of the status row, unformatted. *)
Inductive status_value : Type :=
  | LastUpdate (update_time : Z)
  | DataAge (minutes : spec_float)
  | FileName (filename : string).

(** How a run ends: a rerun requested by the button, [st.stop()] after an
    error or a warning, or the status row followed by the main content. *)
Inductive outcome : Type :=
  | Rerun
  | StoppedOnError (shown : message)
  | StoppedOnWarning (shown : string)
  | Rendered (status : list status_value) (run : list widget * PyResult unit).

(** The text of [f"{prefix}{error}"]. *)
Definition prefixed (prefix : string) (error : message) : message :=
  match error with
  | Msg s => Msg (prefix +:+ s)
  | MsgExn p e => MsgExn (prefix +:+ p) e
  end.

(** Truth value of an error text: a string is true when it is not empty. *)
Definition message_truthy (error : message) : bool :=
  match error with
  | Msg s => negb (String.eqb s "")
  | MsgExn p _ => true
  end.

(** [if error:] passes for an error that is neither [None] nor empty. *)
Definition true_error (error : option message) : option message :=
  match error with
  | Some msg => if message_truthy msg then Some msg else None
  | None => None
  end.

Section Script.

Variable LinearColormap : list string -> Z -> Z -> spec_float -> PyResult string.
Variable GeoSeries_area : list geometry -> PyResult (list spec_float).
Variable Series_sum : list spec_float -> spec_float.

(** [(datetime.now() - update_time).total_seconds()] *)
Variable seconds_since : Z -> spec_float.

Definition status_row (update_time : Z) (filename : string) : list status_value :=
  let time_diff := F64.div (seconds_since update_time) (F64.of_Z 60) in
  [LastUpdate update_time; DataAge time_diff; FileName filename].

(** Lines 242-386; [clicked] is what [st.button] returns. *)
Definition dashboard (fs : filesystem) (clicked : bool) : outcome :=
  let '(data, update_time, filename, error) := load_latest_data fs in
  if clicked then
    let '(data, update_time, filename, error) := load_latest_data fs in
    Rerun
  else
    match true_error error with
    | Some msg => StoppedOnError (prefixed "Data Error: " msg)
    | None =>
        match update_time, filename with
        | Some t, Some f =>
            if negb (String.eqb f "") then
              Rendered (status_row t f)
                (main_content LinearColormap GeoSeries_area Series_sum data [])
            else
              StoppedOnWarning "No data files available. Run the monitoring script first."
        | _, _ =>
            StoppedOnWarning "No data files available. Run the monitoring script first."
        end
    end.

End Script.

(** ** Further vocabulary *)

(** The record is counted by [alert_count]. *)
Definition is_alert (x : PyVal) : bool :=
  negb (is_None x) &&
  match py_float x with
  | Ok f => F64.gtb f ALERT_THRESHOLD
  | Raise _ => false
  end.

(** The score is absent or converts to a float. *)
Definition convertible (x : PyVal) : Prop :=
  x = PyNone \/ exists f, py_float x = Ok f.

(** The shape [sh] is the one the map draws for the record [z]. *)
Definition drawn (cmap : list string -> Z -> Z -> spec_float -> PyResult string)
    (z : zone) (sh : shape) : Prop :=
  shape_geometry sh = zone_geometry z /\
  tooltip_category sh = risk_category z /\
  safe_float_format (risk_score z) 1 = Ok (tooltip_score sh) /\
  get_color cmap (risk_score z) = Ok (fillColor sh).

(** Stand-ins for the geometry package in examples: every area is 0. *)
Definition sample_area (l : list geometry) : PyResult (list spec_float) :=
  Ok (map (fun _ => F64.of_Z 0) l).

Definition sample_sum (l : list spec_float) : spec_float := F64.of_Z 0.

(** Two files created at the same time, after an older one. *)
Definition tied_dir : filesystem :=
  FS true
    [ File "a.geojson" 4 1 (Ok sample_records);
      File "b.geojson" 4 8 (Ok sample_records);
      File "c.geojson" 4 8 (Ok sample_records) ].

(** A file without the score column, one that cannot be parsed, and one
    with a score too large for a float. *)
Definition no_score_dir : filesystem :=
  FS true [File "x.geojson" 4 1 (Ok (Parsed ["geometry"] []))].

Definition broken_dir : filesystem :=
  FS true [File "x.geojson" 4 1 (Raise (OtherException "DataSourceError"))].

Definition huge_score_dir : filesystem :=
  FS true
    [ File "x.geojson" 4 1
        (Ok (Parsed ["risk_score"; "geometry"]
               [Feature (PyInt (2 ^ 1024)) (Geometry "POLYGON EMPTY")])) ].



(** The table row [r] is the one shown for the record [z]. *)
Definition row_of (with_category : bool) (z : zone) (r : table_row) : Prop :=
  (risk_score z = PyNone -> risk_score_display r = NA) /\
  (forall s, py_float (risk_score z) = Ok s -> risk_score_display r = Fixed 1 s "") /\
  row_category r = (if with_category then Some (risk_category z) else None).

(** The geometry package gives one area per geometry. *)
Definition one_area_each (area : list geometry -> PyResult (list spec_float)) : Prop :=
  forall l, exists areas, area l = Ok areas /\ length areas = length l.

(** The five labels of [RISK_CATEGORIES], in order. *)
Definition risk_labels : list string := map fst RISK_CATEGORIES.

(** * Properties *)

(** ** The order of binary64 comparisons *)

Module F64Facts.
Import F64.

Lemma lex3_Lt x y : lex3 x y = Lt <-> lex_lt x y.
Proof.
  destruct x as [[a1 b1] c1], y as [[a2 b2] c2]; unfold lex_lt, lex3; simpl.
  destruct (Z.compare_spec a1 a2), (Z.compare_spec b1 b2), (Z.compare_spec c1 c2);
    split; intros; try discriminate; try reflexivity; lia.
Qed.

Lemma lex3_Eq x y : lex3 x y = Eq <-> x = y.
Proof.
  destruct x as [[a1 b1] c1], y as [[a2 b2] c2]; unfold lex3; simpl.
  destruct (Z.compare_spec a1 a2), (Z.compare_spec b1 b2), (Z.compare_spec c1 c2);
    split; intros E; try discriminate; try reflexivity;
    try (injection E; intros); subst; try lia; reflexivity.
Qed.

Lemma SFcompare_lex a b :
  is_nan a = false -> is_nan b = false ->
  SFcompare a b = Some (lex3 (key a) (key b)).
Proof.
  destruct a as [[]|[]| |[] m1 e1], b as [[]|[]| |[] m2 e2];
    simpl; intros; try discriminate; try reflexivity.
  rewrite Z.compare_opp, (Z.compare_antisym e1 e2).
  destruct (e1 ?= e2); reflexivity.
Qed.

Lemma ltb_nan a b : ltb a b = true -> is_nan a = false /\ is_nan b = false.
Proof. destruct a as [| | |], b as [| | |]; simpl; auto; discriminate. Qed.

Lemma leb_nan a b : leb a b = true -> is_nan a = false /\ is_nan b = false.
Proof. destruct a as [| | |], b as [| | |]; simpl; auto; discriminate. Qed.

Lemma ltb_lex a b :
  ltb a b = true <->
  is_nan a = false /\ is_nan b = false /\ lex_lt (key a) (key b).
Proof.
  split.
  - intros H. destruct (ltb_nan _ _ H) as [Ha Hb]. repeat split; trivial.
    unfold ltb, SFltb in H. rewrite (SFcompare_lex _ _ Ha Hb) in H.
    apply lex3_Lt. destruct (lex3 _ _); congruence.
  - intros (Ha & Hb & H). unfold ltb, SFltb. rewrite (SFcompare_lex _ _ Ha Hb).
    apply lex3_Lt in H. rewrite H. reflexivity.
Qed.

Lemma leb_lex a b :
  leb a b = true <->
  is_nan a = false /\ is_nan b = false /\ lex_le (key a) (key b).
Proof.
  split.
  - intros H. destruct (leb_nan _ _ H) as [Ha Hb]. repeat split; trivial.
    unfold leb, SFleb in H. rewrite (SFcompare_lex _ _ Ha Hb) in H.
    destruct (lex3 _ _) eqn:E; try discriminate.
    + right. apply lex3_Eq, E.
    + left. apply lex3_Lt, E.
  - intros (Ha & Hb & [H|H]); unfold leb, SFleb; rewrite (SFcompare_lex _ _ Ha Hb).
    + apply lex3_Lt in H. rewrite H. reflexivity.
    + apply lex3_Eq in H. rewrite H. reflexivity.
Qed.

Ltac lex_solve :=
  unfold lex_le, lex_lt in *;
  repeat match goal with
  | x : (Z * Z * Z)%type |- _ => destruct x as [[? ?] ?]
  end; simpl in *;
  repeat match goal with
  | H : _ \/ _ |- _ => destruct H
  | H : _ /\ _ |- _ => destruct H
  | H : (_, _) = (_, _) |- _ => injection H as ? ? ?
  end; subst; try lia; try (right; reflexivity); try (left; lia).

Ltac by_keys a b c :=
  generalize dependent (key a); generalize dependent (key b);
  generalize dependent (key c); intros; lex_solve.

Lemma leb_trans a b c : leb a b = true -> leb b c = true -> leb a c = true.
Proof.
  rewrite !leb_lex. intros (? & ? & H1) (? & ? & H2). repeat split; trivial.
  by_keys a b c.
Qed.

Lemma leb_ltb_trans a b c : leb a b = true -> ltb b c = true -> ltb a c = true.
Proof.
  rewrite !leb_lex, !ltb_lex. intros (? & ? & H1) (? & ? & H2).
  repeat split; trivial. by_keys a b c.
Qed.

Lemma ltb_leb_trans a b c : ltb a b = true -> leb b c = true -> ltb a c = true.
Proof.
  rewrite !leb_lex, !ltb_lex. intros (? & ? & H1) (? & ? & H2).
  repeat split; trivial. by_keys a b c.
Qed.

Lemma ltb_irrefl a : ltb a a = false.
Proof.
  destruct (ltb a a) eqn:E; trivial.
  apply ltb_lex in E. destruct E as (_ & _ & H).
  generalize dependent (key a). intros. lex_solve.
Qed.

(** Two numbers are comparable: if [a < b] fails then [b <= a]. *)
Lemma ltb_false_leb a b :
  is_nan a = false -> is_nan b = false -> ltb a b = false -> leb b a = true.
Proof.
  intros Ha Hb H. apply leb_lex. repeat split; trivial.
  assert (N : ~ lex_lt (key a) (key b)).
  { intros L. assert (T : ltb a b = true) by (apply ltb_lex; auto). congruence. }
  generalize dependent (key a). generalize dependent (key b). intros.
  unfold lex_le, lex_lt in *. destruct p as [[? ?] ?], p0 as [[? ?] ?]. simpl in *.
  assert (D : (z, z0, z1) = (z2, z3, z4) <-> z = z2 /\ z0 = z3 /\ z1 = z4).
  { split; [intros E; injection E; auto | intros (-> & -> & ->); reflexivity]. }
  rewrite D. lia.
Qed.

Lemma leb_ltb_false a b : leb a b = true -> ltb b a = false.
Proof.
  intros H. destruct (ltb b a) eqn:E; trivial.
  pose proof (leb_ltb_trans _ _ _ H E) as T. rewrite ltb_irrefl in T. discriminate.
Qed.

Lemma ltb_leb_false a b : ltb a b = true -> leb b a = false.
Proof.
  intros H. destruct (leb b a) eqn:E; trivial.
  pose proof (ltb_leb_trans _ _ _ H E) as T. rewrite ltb_irrefl in T. discriminate.
Qed.

End F64Facts.

(** ** Risk classifier *)

Section Classifier.
Import F64 F64Facts.











End Classifier.


(** C2.  The sentinel outputs of the classifier: [None] gives "No Data";
    the text "abc", the number 10 and the number -1 give "Invalid Data". *)
Theorem get_risk_category_sentinels :
  get_risk_category PyNone = Ok "No Data" /\
  get_risk_category (PyStr "abc") = Ok "Invalid Data" /\
  get_risk_category (PyInt 10) = Ok "Invalid Data" /\
  get_risk_category (PyInt (-1)) = Ok "Invalid Data".
Proof. repeat split; vm_compute; reflexivity. Qed.

(** A score without a float conversion is labelled "Invalid Data". *)
Lemma get_risk_category_not_numeric (v : PyVal) :
  v <> PyNone ->
  py_float v = Raise TypeError \/ py_float v = Raise ValueError ->
  get_risk_category v = Ok "Invalid Data".
Proof.
  intros Hn H. unfold get_risk_category.
  destruct v; try congruence; cbn [is_None];
    destruct H as [H|H]; rewrite H; reflexivity.
Qed.

(** C9.  A NaN score is not [None] and lies in no range, so it is labelled
    "Invalid Data" and not "No Data". *)
Theorem get_risk_category_nan :
  is_None (PyFloat S754_nan) = false /\
  Forall (outside S754_nan) RISK_CATEGORIES /\
  get_risk_category (PyFloat S754_nan) = Ok "Invalid Data" /\
  get_risk_category (PyFloat S754_nan) <> Ok "No Data".
Proof.
  split; [reflexivity|]. split.
  - repeat constructor.
  - split; [reflexivity | discriminate].
Qed.

(** ** Color mapper *)

Section ColorMapper.
Import F64 F64Facts.

Variable cmap : list string -> Z -> Z -> spec_float -> PyResult string.

Lemma palette_No_Data : subscript COLOR_PALETTE "No Data" = Ok "#A9A9A9".
Proof. reflexivity. Qed.

Lemma palette_Invalid_Data : subscript COLOR_PALETTE "Invalid Data" = Ok "#696969".
Proof. reflexivity. Qed.

(** On a value that converts to the float [s], the guard decides. *)
Lemma get_color_float v s :
  py_float v = Ok s ->
  get_color cmap v =
    if ltb s (of_Z 0) || gtb s (of_Z 10) then Ok "#696969"
    else try_except (cmap GRADIENT_COLORS 0 10 s) TypeError_or_ValueError
           (Ok "#696969").
Proof.
  intros H. unfold get_color.
  destruct v; try discriminate H; cbn [is_None]; rewrite H;
    cbn [mbind PyResult_bind]; rewrite palette_Invalid_Data;
    destruct (ltb s (of_Z 0) || gtb s (of_Z 10)); reflexivity.
Qed.

Lemma get_color_not_numeric v :
  v <> PyNone ->
  py_float v = Raise TypeError \/ py_float v = Raise ValueError ->
  get_color cmap v = Ok "#696969".
Proof.
  intros Hn H. unfold get_color.
  destruct v; try congruence; cbn [is_None];
    destruct H as [H|H]; rewrite H; reflexivity.
Qed.


(** C10.  At the score 10 the classifier answers "Invalid Data", the
    last range excluding its upper bound, while [get_color] passes its
    guard and returns what the colormap gives at 10: with the reference
    colormap, the last gradient stop. *)
Theorem score_ten_label_and_color :
  in_range 8 10 (of_Z 10) = false /\
  get_risk_category (PyInt 10) = Ok "Invalid Data" /\
  ltb (of_Z 10) (of_Z 0) || gtb (of_Z 10) (of_Z 10) = false /\
  get_color cmap (PyInt 10) =
    try_except (cmap GRADIENT_COLORS 0 10 (of_Z 10)) TypeError_or_ValueError
      (Ok "#696969") /\
  get_color Colormap.LinearColormap (PyInt 10) = Ok "#ff0000ff" /\
  (Colormap.rgba_hex_str <$>
     (Colormap.parse_color (List.last GRADIENT_COLORS "") ≫= mapM Colormap.to_byte))
    = Ok "#ff0000ff" /\
  get_color Colormap.LinearColormap (PyInt 10) <> subscript COLOR_PALETTE "Invalid Data".
Proof.
  split; [reflexivity|]. split; [reflexivity|]. split; [reflexivity|].
  split; [rewrite (get_color_float (PyInt 10) (of_Z 10)); reflexivity|].
  split; [vm_compute; reflexivity|].
  split; [vm_compute; reflexivity|].
  vm_compute. discriminate.
Qed.

End ColorMapper.


(** ** File selection and loading *)

Section Loader.

Lemma candidate_files_spec fs f :
  f ∈ candidate_files fs <-> qualifies f /\ f ∈ listdir fs.
Proof.
  unfold candidate_files, qualifies. rewrite list_elem_of_filter.
  rewrite andb_True, !Is_true_true, Z.ltb_lt. reflexivity.
Qed.

Lemma max_by_key_spec {A} (key : A -> Z) rest : forall best,
  max_by_key key best rest ∈ best :: rest /\
  forall x, x ∈ best :: rest -> key x <= key (max_by_key key best rest).
Proof.
  induction rest as [|y rest IH]; intros best; simpl.
  - split; [left|]. intros x Hx. apply list_elem_of_singleton in Hx. subst. lia.
  - destruct (IH (if key best <? key y then y else best)) as [Hin Hmax]. split.
    + apply elem_of_cons in Hin as [->|Hin].
      * destruct (key best <? key y); [right; left | left].
      * right; right; exact Hin.
    + intros x Hx.
      assert (Hb : key best <= key (max_by_key key (if key best <? key y then y else best) rest)
                   /\ key y <= key (max_by_key key (if key best <? key y then y else best) rest)).
      { pose proof (Hmax _ (list_elem_of_here _ _)) as Hm.
        destruct (Z.ltb_spec (key best) (key y)); lia. }
      apply elem_of_cons in Hx as [->|Hx]; [lia|].
      apply elem_of_cons in Hx as [->|Hx]; [lia|].
      apply Hmax. right. exact Hx.
Qed.

Lemma latest_file_Some fs latest :
  latest_file fs = Some latest ->
  latest ∈ listdir fs /\ qualifies latest /\
  forall g, g ∈ listdir fs -> qualifies g -> getctime g <= getctime latest.
Proof.
  unfold latest_file. intros H.
  destruct (candidate_files fs) as [|f rest] eqn:E; [discriminate|].
  injection H as <-.
  destruct (max_by_key_spec getctime rest f) as [Hin Hmax].
  rewrite <- E in Hin, Hmax.
  apply candidate_files_spec in Hin as [Hq Hin]. repeat split; try apply Hq; trivial.
  intros g Hg Hqg. apply Hmax, candidate_files_spec. auto.
Qed.

Lemma latest_file_None fs :
  latest_file fs = None <-> forall f, f ∈ listdir fs -> ~ qualifies f.
Proof.
  unfold latest_file. split.
  - destruct (candidate_files fs) as [|f rest] eqn:E; [|discriminate].
    intros _ f Hf Hq.
    assert (Hc : f ∈ candidate_files fs) by (apply candidate_files_spec; auto).
    rewrite E in Hc. inversion Hc.
  - intros H. destruct (candidate_files fs) as [|f rest] eqn:E; [reflexivity|].
    assert (Hc : f ∈ candidate_files fs) by (rewrite E; left).
    apply candidate_files_spec in Hc as [Hq Hin]. destruct (H f Hin Hq).
Qed.

Lemma mapM_Ok {A B} (f : A -> PyResult B) l ys :
  mapM f l = Ok ys -> Forall2 (fun x y => f x = Ok y) l ys.
Proof.
  revert ys. induction l as [|x l IH]; simpl; intros ys H.
  - injection H as <-. constructor.
  - unfold mbind at 1, PyResult_bind in H.
    destruct (f x) as [y|] eqn:Ey; [|discriminate].
    unfold mbind, PyResult_bind in H.
    destruct (mapM f l) as [k|] eqn:Ek; [|discriminate].
    injection H as <-. constructor; auto.
Qed.

Lemma mapM_Ok_intro {A B} (f : A -> PyResult B) l :
  Forall (fun x => exists y, f x = Ok y) l -> exists ys, mapM f l = Ok ys.
Proof.
  induction 1 as [|x l [y Hy] _ [ys IH]]; simpl.
  - eexists; reflexivity.
  - rewrite Hy. cbn [mbind PyResult_bind]. rewrite IH. eexists; reflexivity.
Qed.

(** What a successful load returns. *)
Lemma load_latest_data_Some fs data t n e :
  load_latest_data fs = (Some data, t, n, e) ->
  exists latest p cats,
    exists_DATA_DIR fs = true /\
    latest_file fs = Some latest /\
    read_file latest = Ok p /\
    mapM (fun ft => get_risk_category (feature_score ft)) (parsed_features p) = Ok cats /\
    data = Frame (parsed_columns p ++ ["risk_category"])
             (zip_with (fun ft c => Zone (feature_score ft) (feature_geometry ft) c)
                (parsed_features p) cats) /\
    t = Some (getctime latest) /\ n = Some (name latest) /\ e = None.
Proof.
  unfold load_latest_data.
  destruct (exists_DATA_DIR fs); cbn [negb]; [|discriminate].
  destruct (latest_file fs) as [latest|]; [|discriminate].
  destruct (read_file latest) as [p|] eqn:Er; cbn [mbind PyResult_bind]; [|discriminate].
  cbn [forallb]. rewrite andb_true_r.
  destruct (bool_decide ("risk_score" ∈ parsed_columns p)); cbn [andb negb].
  2: discriminate.
  destruct (bool_decide ("geometry" ∈ parsed_columns p)); cbn [negb]; [|discriminate].
  destruct (mapM _ (parsed_features p)) as [cats|] eqn:Ec;
    cbn [mbind PyResult_bind]; [|discriminate].
  intros H. injection H as <- <- <- <-.
  exists latest, p, cats. repeat split; trivial.
Qed.

(** Every error path returns the message alone. *)
Lemma load_latest_data_error fs data t n msg :
  load_latest_data fs = (data, t, n, Some msg) ->
  data = None /\ t = None /\ n = None.
Proof.
  unfold load_latest_data.
  destruct (exists_DATA_DIR fs); cbn [negb].
  2: { intros H; injection H as <- <- <- _; auto. }
  destruct (latest_file fs) as [latest|].
  2: { intros H; injection H as <- <- <- _; auto. }
  destruct (read_file latest) as [p|]; cbn [mbind PyResult_bind].
  2: { intros H; injection H as <- <- <- _; auto. }
  destruct (negb _).
  { intros H; injection H as <- <- <- _; auto. }
  destruct (bool_decide _).
  - destruct (mapM _ _); cbn [mbind PyResult_bind].
    + discriminate.
    + intros H; injection H as <- <- <- _; auto.
  - cbn [mbind PyResult_bind]. discriminate.
Qed.

(** C4.  When [DATA_DIR] exists, the file selected by [load_latest_data]
    is an entry whose name ends in ".geojson" and whose size is positive,
    and no such entry has a later creation time; an entry of size zero is
    never selected, and some file is selected as soon as one qualifies;
    a successful load reports the selected file's name and time.  When
    the directory is missing or no entry qualifies, the result is the
    error message with no data, time or file name, as on every error. *)
Theorem load_latest_data_selection (fs : filesystem) :
  (exists_DATA_DIR fs = false ->
     load_latest_data fs = (None, None, None, Some (Msg "Data directory not found"))) /\
  (exists_DATA_DIR fs = true ->
     (forall f, f ∈ listdir fs -> ~ qualifies f) ->
     load_latest_data fs = (None, None, None, Some (Msg "No valid GeoJSON files found"))) /\
  (forall latest, latest_file fs = Some latest ->
     latest ∈ listdir fs /\ qualifies latest /\ getsize latest <> 0 /\
     forall g, g ∈ listdir fs -> qualifies g -> getctime g <= getctime latest) /\
  (forall f, f ∈ listdir fs -> qualifies f -> exists latest, latest_file fs = Some latest) /\
  (forall data t n e, load_latest_data fs = (Some data, t, n, e) ->
     exists latest, latest_file fs = Some latest /\
       t = Some (getctime latest) /\ n = Some (name latest) /\ e = None) /\
  (forall data t n msg, load_latest_data fs = (data, t, n, Some msg) ->
     data = None /\ t = None /\ n = None).
Proof.
  split.
  { intros H. unfold load_latest_data. rewrite H. reflexivity. }
  split.
  { intros H Hn. apply latest_file_None in Hn.
    unfold load_latest_data. rewrite H, Hn. reflexivity. }
  split.
  { intros latest H. destruct (latest_file_Some _ _ H) as (Hin & Hq & Hmax).
    repeat split; trivial; try apply Hq. destruct Hq. lia. }
  split.
  { intros f Hin Hq. destruct (latest_file fs) as [l|] eqn:E; [eauto|].
    destruct (proj1 (latest_file_None fs) E f Hin Hq). }
  split.
  { intros data t n e H.
    destruct (load_latest_data_Some _ _ _ _ _ H)
      as (latest & p & cats & _ & Hl & _ & _ & _ & -> & -> & ->).
    exists latest. auto. }
  intros data t n msg. apply load_latest_data_error.
Qed.

End Loader.

Lemma load_latest_data_selection_witness :
  load_latest_data (FS false []) = (None, None, None, Some (Msg "Data directory not found")) /\
  load_latest_data (FS true [File "notes.txt" 3 30 (Ok sample_records)])
    = (None, None, None, Some (Msg "No valid GeoJSON files found")) /\
  latest_file sample_dir = Some (File "new.geojson" 7 9 (Ok sample_records)) /\
  (forall g, g ∈ listdir sample_dir -> qualifies g -> getctime g <= 9) /\
  (exists d, load_latest_data sample_dir = (Some d, Some 9, Some "new.geojson", None)).
Proof.
  split; [apply (load_latest_data_selection (FS false [])); reflexivity|].
  split.
  { apply (load_latest_data_selection (FS true [File "notes.txt" 3 30 (Ok sample_records)]));
      [reflexivity|].
    intros f Hf [Hq _]. apply list_elem_of_singleton in Hf. subst f. discriminate Hq. }
  assert (Hl : latest_file sample_dir = Some (File "new.geojson" 7 9 (Ok sample_records)))
    by reflexivity.
  split; [exact Hl|]. split.
  { destruct (proj1 (proj2 (proj2 (load_latest_data_selection sample_dir))) _ Hl)
      as (_ & _ & _ & Hmax). exact Hmax. }
  eexists. vm_compute. reflexivity.
Defined.

(** ** The two-file scenario *)

Section ScenarioFacts.

Variables T1 T2 : Z.
Variables g1 g2 g3 : geometry.
Variable read_a : PyResult parsed.

(** C8, for the extension the filter accepts.  With a.geojson (created at
    T1, size 0) and b.geojson (created at T2 > T1, size 512, scores 1, 5
    and 9), the selector picks b.geojson, the labels are No Risk, Moderate
    Risk and Extreme Risk, and the alert count is 2. *)
Theorem scenario_geojson (as_float : bool) :
  T1 < T2 -> scenario_outcome T1 T2 g1 g2 g3 read_a ".geojson" as_float.
Proof.
  intros _. unfold scenario_outcome.
  eexists (File "b.geojson" 512 T2 (Ok (scenario_records g1 g2 g3 as_float))), _.
  split; [reflexivity|]. split; [reflexivity|].
  destruct as_float; (split; [reflexivity|]); split; reflexivity.
Qed.

(** The score 1 is not above the threshold 1.0; 5 and 9 are. *)
Lemma alert_threshold_strict :
  F64.gtb (F64.of_Z 1) ALERT_THRESHOLD = false /\
  F64.gtb (F64.of_Z 5) ALERT_THRESHOLD = true /\
  F64.gtb (F64.of_Z 9) ALERT_THRESHOLD = true.
Proof. repeat split; reflexivity. Qed.

End ScenarioFacts.

Lemma scenario_geojson_witness :
  1 < 2 /\
  scenario_outcome 1 2 (Geometry "g1") (Geometry "g2") (Geometry "g3")
    (Raise (OtherException "DataSourceError")) ".geojson" false.
Proof.
  split; [lia|]. apply scenario_geojson. lia.
Defined.

(** With the names a.geo and b.geo of the scenario as written, neither
    file passes the ".geojson" filter and nothing is selected. *)
Lemma scenario_geo_counterexample :
  ~ scenario_outcome 1 2 (Geometry "g1") (Geometry "g2") (Geometry "g3")
      (Raise (OtherException "DataSourceError")) ".geo" false /\
  load_latest_data
    (scenario 1 2 (Geometry "g1") (Geometry "g2") (Geometry "g3")
       (Raise (OtherException "DataSourceError")) ".geo" false)
  = (None, None, None, Some (Msg "No valid GeoJSON files found")).
Proof.
  split; [|reflexivity].
  intros (latest & data & H & _). discriminate H.
Qed.

(** ** Distribution chart *)

Section Distribution.

Lemma value_counts_lookup labels c :
  default 0%nat (value_counts labels !! c) = occurrences c labels.
Proof.
  induction labels as [|x rest IH]; simpl.
  - rewrite lookup_empty. reflexivity.
  - fold (value_counts rest). case_bool_decide as E.
    + subst x. rewrite lookup_insert_eq. simpl. rewrite IH. reflexivity.
    + rewrite lookup_insert_ne by exact E. exact IH.
Qed.

Lemma reindex_counts labels index :
  map snd (reindex (value_counts labels) index)
  = map (fun c => occurrences c labels) index.
Proof.
  unfold reindex. rewrite map_map. apply map_ext. intros c. simpl.
  apply value_counts_lookup.
Qed.

Lemma reindex_labels counts index : map fst (reindex counts index) = index.
Proof. unfold reindex. rewrite map_map. simpl. apply map_id. Qed.

(** A label of the index is counted once over an index without repeats. *)
Lemma indicator_sum (x : string) index :
  NoDup index -> x ∈ index ->
  sum_list (map (fun c => if bool_decide (x = c) then 1%nat else 0%nat) index) = 1%nat.
Proof.
  induction 1 as [|c index Hc Hnd IH]; intros Hx; [inversion Hx|].
  simpl. case_bool_decide as E.
  - subst c. f_equal. clear IH Hx. induction index as [|d index IH]; simpl; trivial.
    apply not_elem_of_cons in Hc as [Hne Hc].
    rewrite bool_decide_eq_false_2 by exact Hne. simpl. apply IH; trivial.
    apply NoDup_cons in Hnd. apply Hnd.
  - apply elem_of_cons in Hx as [->|Hx]; [congruence|]. simpl. apply IH, Hx.
Qed.

Lemma sum_list_map_add {A} (f g : A -> nat) l :
  sum_list (map (fun a => (f a + g a)%nat) l)
  = (sum_list (map f l) + sum_list (map g l))%nat.
Proof. induction l as [|a l IH]; simpl; [reflexivity | rewrite IH; lia]. Qed.

Lemma occurrences_sum labels index :
  NoDup index -> Forall (fun x => x ∈ index) labels ->
  sum_list (map (fun c => occurrences c labels) index) = length labels.
Proof.
  intros Hnd. induction 1 as [|x rest Hx _ IH]; simpl.
  - clear Hnd. induction index as [|c index IHi]; simpl; trivial.
  - rewrite sum_list_map_add, IH, (indicator_sum x index Hnd Hx). reflexivity.
Qed.

Lemma first_category_label items s c :
  first_category items s = Some c -> c ∈ map fst items.
Proof.
  induction items as [|[c' [lo up]] rest IH]; simpl; [discriminate|].
  destruct (in_range lo up s).
  - intros H; injection H as ->. left.
  - intros H. right. apply IH, H.
Qed.

(** Whatever [get_risk_category] returns is one of the seven labels. *)
Lemma get_risk_category_label v c :
  get_risk_category v = Ok c -> c ∈ all_categories.
Proof.
  assert (Hnd : "No Data" ∈ all_categories) by (vm_compute; do 5 right; left).
  assert (Hid : "Invalid Data" ∈ all_categories) by (vm_compute; do 6 right; left).
  unfold get_risk_category. destruct (is_None v).
  { intros H; injection H as <-. exact Hnd. }
  destruct (py_float v) as [s|e]; cbn [mbind PyResult_bind try_except].
  - destruct (first_category RISK_CATEGORIES s) as [c'|] eqn:E;
      intros H; injection H as <-; [|exact Hid].
    unfold all_categories. apply elem_of_app. left.
    eapply first_category_label, E.
  - destruct (TypeError_or_ValueError e); [|discriminate].
    intros H; injection H as <-. exact Hid.
Qed.

Lemma all_categories_NoDup : NoDup all_categories.
Proof. apply (bool_decide_unpack _). vm_compute. exact I. Qed.

(** The categories of a loaded frame come from [get_risk_category]. *)
Lemma loaded_categories fs data t n e :
  load_latest_data fs = (Some data, t, n, e) ->
  Forall2 (fun z c => get_risk_category (risk_score z) = Ok c /\ risk_category z = c)
    (zones data) (map risk_category (zones data)).
Proof.
  intros H. destruct (load_latest_data_Some _ _ _ _ _ H)
    as (latest & p & cats & _ & _ & _ & Hc & -> & _).
  apply mapM_Ok in Hc. clear H. simpl.
  induction Hc as [|ft c fts cats Hft _ IH]; simpl; constructor; auto.
Qed.

(** C5.  For a loaded record set, the chart lists the seven labels in
    their declared order, each with its number of records, and the
    counts add up to the number of records. *)
Theorem risk_counts_total fs data t n e :
  load_latest_data fs = (Some data, t, n, e) ->
  map fst (risk_counts data) =
    ["No Risk"; "Low Risk"; "Moderate Risk"; "High Risk"; "Extreme Risk";
     "No Data"; "Invalid Data"] /\
  (forall c k, (c, k) ∈ risk_counts data ->
     k = occurrences c (map risk_category (zones data))) /\
  Forall (fun z => get_risk_category (risk_score z) = Ok (risk_category z)
                   /\ risk_category z ∈ all_categories) (zones data) /\
  sum_list (map snd (risk_counts data)) = length (zones data).
Proof.
  intros H. pose proof (loaded_categories _ _ _ _ _ H) as Hc.
  assert (Hz : Forall (fun z => get_risk_category (risk_score z) = Ok (risk_category z)
                   /\ risk_category z ∈ all_categories) (zones data)).
  { clear H. induction (zones data) as [|z zs IH]; [constructor|].
    simpl in Hc. inversion Hc as [|? ? ? ? [Hz _] Hrest]; subst.
    constructor; [|apply IH, Hrest].
    split; [exact Hz | eapply get_risk_category_label, Hz]. }
  split; [apply reindex_labels|]. split.
  { unfold risk_counts, reindex. intros c k Hk.
    apply list_elem_of_fmap in Hk as (c' & E & _). injection E as -> ->.
    apply value_counts_lookup. }
  split; [exact Hz|].
  unfold risk_counts. rewrite reindex_counts.
  rewrite occurrences_sum; [apply length_map | apply all_categories_NoDup |].
  apply Forall_fmap. eapply Forall_impl; [exact Hz|]. intros z [_ Hin]. exact Hin.
Qed.

End Distribution.

Lemma risk_counts_total_witness :
  load_latest_data sample_dir = (Some sample_frame, Some 9, Some "new.geojson", None) /\
  sum_list (map snd (risk_counts sample_frame)) = length (zones sample_frame).
Proof.
  assert (H : load_latest_data sample_dir
              = (Some sample_frame, Some 9, Some "new.geojson", None))
    by (vm_compute; reflexivity).
  split; [exact H|]. apply (risk_counts_total _ _ _ _ _ H).
Defined.

(** ** Table order *)

Section TableOrder.
Import F64 F64Facts.

Lemma key_before_total a b : key_before a b = false -> key_before b a = true.
Proof.
  unfold key_before.
  destruct (is_nan b) eqn:Hb; [discriminate|].
  destruct (is_nan a) eqn:Ha; [reflexivity|].
  unfold geb. intros H.
  assert (L : ltb b a = true \/ ltb b a = false) by (destruct (ltb b a); auto).
  destruct L as [L|L].
  - apply ltb_lex in L as (_ & _ & L).
    assert (E : leb b a = true) by (apply leb_lex; repeat split; trivial; left; exact L).
    unfold leb in E. congruence.
  - apply (ltb_false_leb _ _ Hb Ha L).
Qed.

Lemma key_before_trans a b c :
  key_before a b = true -> key_before b c = true -> key_before a c = true.
Proof.
  unfold key_before.
  destruct (is_nan c); [reflexivity|].
  destruct (is_nan b) eqn:Hb; [discriminate|].
  destruct (is_nan a); [discriminate|].
  unfold geb. intros H1 H2. exact (leb_trans _ _ _ H2 H1).
Qed.

Context {A : Type}.
Implicit Types (x y : spec_float * A) (l : list (spec_float * A)).

Lemma insert_desc_perm x l : Permutation (insert_desc x l) (x :: l).
Proof.
  induction l as [|y l IH]; simpl; [reflexivity|].
  destruct (key_before (fst x) (fst y)); [reflexivity|].
  rewrite IH. apply perm_swap.
Qed.

Lemma sort_values_desc_perm l : Permutation (sort_values_desc l) l.
Proof.
  induction l as [|x l IH]; simpl; [reflexivity|].
  fold (sort_values_desc l). rewrite insert_desc_perm, IH. reflexivity.
Qed.

Lemma insert_desc_sorted x l :
  StronglySorted key_order l -> StronglySorted key_order (insert_desc x l).
Proof.
  induction 1 as [|y l Hs IH Hy]; simpl.
  - repeat constructor.
  - destruct (key_before (fst x) (fst y)) eqn:E.
    + constructor; [constructor; assumption|].
      constructor; [exact E|].
      eapply Forall_impl; [exact Hy|]. intros z Hz.
      unfold key_order in *. eapply key_before_trans; eassumption.
    + constructor; [exact IH|].
      rewrite insert_desc_perm. constructor; [|exact Hy].
      apply key_before_total, E.
Qed.

Lemma sort_values_desc_sorted l : StronglySorted key_order (sort_values_desc l).
Proof.
  induction l as [|x l IH]; simpl; [constructor|].
  apply insert_desc_sorted, IH.
Qed.

Lemma StronglySorted_lookup (R : spec_float * A -> spec_float * A -> Prop) l i j x y :
  StronglySorted R l -> l !! i = Some x -> l !! j = Some y -> (i < j)%nat -> R x y.
Proof.
  intros Hs. revert i j. induction Hs as [|z l Hs IH Hz]; intros i j Hi Hj Hlt.
  - rewrite lookup_nil in Hi. discriminate.
  - destruct j as [|j]; [lia|]. destruct i as [|i]; simpl in *.
    + injection Hi as ->. rewrite Forall_forall in Hz. apply Hz.
      eapply list_elem_of_lookup_2, Hj.
    + eapply IH; eauto. lia.
Qed.

End TableOrder.

Section Table.
Import F64 F64Facts.

Lemma zip_keyed keys (zs : list zone) :
  Forall2 (fun z k => sort_key (risk_score z) = Ok k) zs keys ->
  Forall keyed (zip keys zs) /\ map snd (zip keys zs) = zs.
Proof.
  induction 1 as [|z k zs keys Hk _ [IH1 IH2]]; simpl.
  - split; [constructor | reflexivity].
  - split; [constructor; assumption | f_equal; exact IH2].
Qed.

Lemma display_data_Ok data rows :
  "risk_score" ∈ columns data -> display_data data = Ok rows ->
  exists sorted,
    rows = map snd sorted /\ Forall keyed sorted /\
    StronglySorted key_order sorted /\ Permutation rows (zones data).
Proof.
  intros Hcol. unfold display_data. rewrite bool_decide_eq_true_2 by exact Hcol.
  destruct (mapM _ (zones data)) as [keys|] eqn:E; cbn [mbind PyResult_bind];
    [|discriminate].
  intros H; injection H as <-. apply mapM_Ok, zip_keyed in E as [Hk Hz].
  exists (sort_values_desc (zip keys (zones data))).
  split; [reflexivity|]. split.
  { rewrite sort_values_desc_perm. exact Hk. }
  split; [apply sort_values_desc_sorted|].
  rewrite <- Hz at 2. apply Permutation_map, sort_values_desc_perm.
Qed.

Lemma sorted_descending sorted :
  Forall keyed sorted -> StronglySorted key_order sorted ->
  descending (map snd sorted).
Proof.
  intros Hk Hs i j zi zj ki kj Hi Hj Hlt Hki Hkj.
  rewrite list_lookup_fmap in Hi, Hj.
  destruct (sorted !! i) as [[ki' zi']|] eqn:Ei; [|discriminate].
  destruct (sorted !! j) as [[kj' zj']|] eqn:Ej; [|discriminate].
  simpl in Hi, Hj. injection Hi as ->. injection Hj as ->.
  rewrite Forall_forall in Hk.
  pose proof (Hk _ (list_elem_of_lookup_2 _ _ _ Ei)) as Ki.
  pose proof (Hk _ (list_elem_of_lookup_2 _ _ _ Ej)) as Kj.
  unfold keyed in Ki, Kj. simpl in Ki, Kj.
  assert (ki' = ki) by congruence. assert (kj' = kj) by congruence. subst.
  exact (StronglySorted_lookup _ _ _ _ _ _ Hs Ei Ej Hlt).
Qed.

Lemma descending_absent_after rows :
  descending rows -> absent_after (fun s => ltb (of_Z (-1)) s = true) rows.
Proof.
  intros Hd i j zi zj s Hi Hj Hnone Hs Hgt.
  destruct (lt_eq_lt_dec i j) as [[Hlt|Heq]|Hlt]; [|subst j|exact Hlt].
  - assert (Ki : sort_key (risk_score zi) = Ok (of_Z (-1))) by (rewrite Hnone; reflexivity).
    assert (Kj : sort_key (risk_score zj) = Ok s).
    { unfold sort_key. destruct (risk_score zj); try discriminate Hs; exact Hs. }
    pose proof (Hd _ _ _ _ _ _ Hi Hj Hlt Ki Kj) as Hb.
    unfold key_before in Hb. destruct (ltb_nan _ _ Hgt) as [_ Hn].
    rewrite Hn in Hb. cbn [is_nan] in Hb. change (is_nan (of_Z (-1))) with false in Hb.
    unfold geb in Hb. pose proof (ltb_leb_false _ _ Hgt) as Hc.
    unfold leb in Hc. congruence.
  - rewrite Hi in Hj. injection Hj as ->. rewrite Hnone in Hs. discriminate.
Qed.


End Table.



(** ** Panels *)

Section Panels.

Variable cmap : list string -> Z -> Z -> spec_float -> PyResult string.
Variable area : list geometry -> PyResult (list spec_float).
Variable total : list spec_float -> spec_float.

(** A panel wrapped in [try ... except Exception] that reports through
    [st.error] does not raise. *)
Lemma try_catch_completes (body : Script unit) (report : exn -> widget) page :
  completes (try_catch body any_Exception (fun e => show (report e)) page).
Proof.
  unfold completes, try_catch. destruct (body page) as [page' [[]|e]]; reflexivity.
Qed.

Lemma highest_risk_metric_completes data page :
  completes (highest_risk_metric data page).
Proof. apply (try_catch_completes _ (fun _ => st_metric HighestRisk NA)). Qed.

Lemma area_metric_completes data page :
  completes (area_metric area total data page).
Proof. apply (try_catch_completes _ (fun _ => st_metric Area NA)). Qed.

Lemma distribution_chart_completes data page :
  completes (distribution_chart data page).
Proof.
  unfold distribution_chart. destruct (bool_decide _); [|reflexivity].
  unfold mbind, Script_bind. cbn [show].
  apply (try_catch_completes _
           (fun e => st_error (MsgExn "Could not display risk distribution: " e))).
Qed.

Lemma risk_map_completes data page : completes (risk_map cmap data page).
Proof.
  unfold risk_map, mbind, Script_bind. cbn [show].
  apply (try_catch_completes _ (fun e => st_error (MsgExn "Map rendering error: " e))).
Qed.

Lemma details_table_completes data page :
  completes (details_table area data page).
Proof.
  unfold details_table, mbind, Script_bind. cbn [show].
  apply (try_catch_completes _ (fun e => st_error (MsgExn "Data display error: " e))).
Qed.

(** The alert count raises what [float] raises on a score. *)
Lemma alert_count_raises x rest e :
  is_None x = false -> py_float x = Raise e ->
  alert_count (x :: rest) = Raise e.
Proof. intros Hn H. simpl. rewrite Hn, H. reflexivity. Qed.

(** C7, on a text score.  A file with the score "abc" loads without
    error; in the render pass the highest-risk metric catches the
    conversion error and shows N/A, but the alert-zones metric, which has
    no [try], raises [ValueError]: the run stops after the area metric and
    shows no chart, no map and no table. *)
Theorem text_score_stops_render :
  load_latest_data text_score_dir
    = (Some text_score_frame, Some 1, Some "zones.geojson", None) /\
  highest_risk_metric text_score_frame [] = ([st_metric HighestRisk NA], Ok tt) /\
  alert_zones_metric text_score_frame [] = ([], Raise ValueError) /\
  exists shown,
    main_content cmap area total (Some text_score_frame) []
      = ([ st_markdown "Risk Overview";
           st_metric TotalZones (Num 1);
           st_metric HighestRisk NA;
           st_metric Area shown ], Raise ValueError) /\
    existsb is_chart_map_or_table
      (main_content cmap area total (Some text_score_frame) []).1 = false.
Proof.
  split; [vm_compute; reflexivity|].
  split; [vm_compute; reflexivity|].
  split; [vm_compute; reflexivity|].
  unfold main_content. cbn [negb bool_decide]. 
  unfold mbind, Script_bind, area_metric, try_catch, eval. cbn [show app].
  change (highest_risk_metric text_score_frame [st_markdown "Risk Overview";
            st_metric TotalZones (Num 1)])
    with ([st_markdown "Risk Overview"; st_metric TotalZones (Num 1);
           st_metric HighestRisk NA], @Ok unit tt).
  cbv beta iota.
  destruct (area _) as [areas|e]; cbn [any_Exception show app];
    eexists; (split; [reflexivity|]); reflexivity.
Qed.

End Panels.

(** * Further properties *)

(** ** What escapes the utility functions *)

Section Escapes.
Import F64 F64Facts.

Lemma ltb_leb a b : ltb a b = true -> leb a b = true.
Proof.
  rewrite ltb_lex, leb_lex. intros (? & ? & H). repeat split; trivial. left. exact H.
Qed.

Lemma py_float_raises v e :
  py_float v = Raise e ->
  (e = TypeError /\ (v = PyNone \/ v = PyObject)) \/
  (e = ValueError /\ exists t, v = PyStr t /\ FloatStr.parse t = None) \/
  (e = OverflowError /\ exists z sgn, v = PyInt z /\ of_Z z = S754_infinity sgn).
Proof.
  destruct v as [|f|z|t|]; simpl.
  - intros H; injection H as <-. left. auto.
  - discriminate.
  - destruct (of_Z z) eqn:E; try discriminate.
    intros H; injection H as <-. right; right. eauto.
  - destruct (FloatStr.parse t) eqn:E; [discriminate|].
    intros H; injection H as <-. right; left. eauto.
  - intros H; injection H as <-. left. auto.
Qed.

(** X1.  The only exception that leaves [get_risk_category] or
    [safe_float_format] is the [OverflowError] of an int too large for a
    float; every other input gets a label, respectively a text. *)
Theorem only_overflow_escapes (v : PyVal) (e : exn) (p : nat) :
  get_risk_category v = Raise e \/ safe_float_format v p = Raise e ->
  e = OverflowError /\
  get_risk_category v = Raise OverflowError /\
  safe_float_format v p = Raise OverflowError /\
  exists z sgn, v = PyInt z /\ of_Z z = S754_infinity sgn.
Proof.
  intros H.
  assert (Hf : py_float v = Raise e /\ is_None v = false /\ TypeError_or_ValueError e = false).
  { unfold get_risk_category, safe_float_format in H.
    destruct (is_None v); [destruct H; discriminate|].
    destruct (py_float v) as [s|e'] eqn:Ef; cbn [mbind PyResult_bind try_except] in H.
    - destruct H as [H|H]; [|discriminate].
      destruct (first_category RISK_CATEGORIES s); discriminate.
    - destruct (TypeError_or_ValueError e') eqn:Ec;
        destruct H as [H|H]; try discriminate; injection H as <-; auto. }
  destruct Hf as (Hf & Hn & Hc).
  destruct (py_float_raises _ _ Hf) as [[-> _]|[[-> _]|[-> (z & sgn & -> & Hz)]]];
    try discriminate.
  split; [reflexivity|].
  unfold get_risk_category, safe_float_format. cbn [is_None]. rewrite Hf.
  repeat split; eauto.
Qed.

End Escapes.

Lemma only_overflow_escapes_witness :
  get_risk_category (PyInt (2 ^ 1024)) = Raise OverflowError /\
  safe_float_format (PyInt (2 ^ 1024)) 1 = Raise OverflowError.
Proof.
  assert (H : get_risk_category (PyInt (2 ^ 1024)) = Raise OverflowError)
    by (vm_compute; reflexivity).
  destruct (only_overflow_escapes (PyInt (2 ^ 1024)) OverflowError 1 (or_introl H))
    as (_ & H1 & H2 & _).
  split; assumption.
Defined.

(** ** Labels, colors and tooltips of one score *)

Section OneScore.
Import F64 F64Facts.

Variable cmap : list string -> Z -> Z -> spec_float -> PyResult string.

(** A label found by the scan comes with its item and the range test. *)
Lemma first_category_item s label :
  first_category RISK_CATEGORIES s = Some label ->
  exists i lower upper,
    RISK_CATEGORIES !! i = Some (label, (lower, upper)) /\
    leb (of_Z lower) s = true /\ ltb s (of_Z upper) = true.
Proof.
  unfold RISK_CATEGORIES. cbn [first_category].
  destruct (in_range 0 2 s) eqn:R0; [intros H; injection H as <-; exists 0%nat, 0, 2|].
  2: destruct (in_range 2 4 s) eqn:R1; [intros H; injection H as <-; exists 1%nat, 2, 4|].
  3: destruct (in_range 4 6 s) eqn:R2; [intros H; injection H as <-; exists 2%nat, 4, 6|].
  4: destruct (in_range 6 8 s) eqn:R3; [intros H; injection H as <-; exists 3%nat, 6, 8|].
  5: destruct (in_range 8 10 s) eqn:R4;
       [intros H; injection H as <-; exists 4%nat, 8, 10 | discriminate].
  all: split; [reflexivity|]; apply andb_true_iff; assumption.
Qed.

Lemma first_category_bounds s label :
  first_category RISK_CATEGORIES s = Some label ->
  leb (of_Z 0) s = true /\ ltb s (of_Z 10) = true.
Proof.
  intros H. destruct (first_category_item _ _ H) as (i & lo & up & Hi & Hlo & Hup).
  do 5 (destruct i as [|i]; [simpl in Hi; injection Hi as <- <- <-; split;
    [refine (leb_trans _ _ _ _ Hlo) | refine (ltb_leb_trans _ _ _ Hup _)];
    vm_compute; reflexivity|]).
  discriminate.
Qed.

(** A risk label is only given to a score that converts to a float and
    that the scan accepts. *)
Lemma risk_label_source v label :
  get_risk_category v = Ok label -> label ∈ risk_labels ->
  exists s, py_float v = Ok s /\ first_category RISK_CATEGORIES s = Some label.
Proof.
  intros H Hl.
  assert (Hnd : "No Data" ∉ risk_labels)
    by (intros E%list_elem_of_In; simpl in E; intuition discriminate).
  assert (Hid : "Invalid Data" ∉ risk_labels)
    by (intros E%list_elem_of_In; simpl in E; intuition discriminate).
  unfold get_risk_category in H. destruct (is_None v).
  { injection H as <-. contradiction. }
  destruct (py_float v) as [s|e]; cbn [mbind PyResult_bind try_except] in H.
  - exists s. split; [reflexivity|].
    destruct (first_category RISK_CATEGORIES s); injection H as <-;
      [reflexivity | contradiction].
  - destruct (TypeError_or_ValueError e); [|discriminate].
    injection H as <-. contradiction.
Qed.

(** X2.  The labels follow the scores: of two scores with risk labels,
    the greater one never has the earlier label of [RISK_CATEGORIES]. *)
Theorem risk_label_monotone (v1 v2 : PyVal) (s1 s2 : spec_float) (l1 l2 : string) :
  py_float v1 = Ok s1 -> py_float v2 = Ok s2 -> leb s1 s2 = true ->
  get_risk_category v1 = Ok l1 -> get_risk_category v2 = Ok l2 ->
  l1 ∈ risk_labels -> l2 ∈ risk_labels ->
  exists i j,
    risk_labels !! i = Some l1 /\ risk_labels !! j = Some l2 /\ (i <= j)%nat.
Proof.
  intros Hf1 Hf2 Hle H1 H2 Hl1 Hl2.
  destruct (risk_label_source _ _ H1 Hl1) as (s1' & E1 & C1).
  destruct (risk_label_source _ _ H2 Hl2) as (s2' & E2 & C2).
  assert (s1' = s1) by congruence. assert (s2' = s2) by congruence. subst.
  destruct (first_category_item _ _ C1) as (i & lo1 & up1 & Hi & Hlo1 & _).
  destruct (first_category_item _ _ C2) as (j & lo2 & up2 & Hj & _ & Hup2).
  exists i, j.
  assert (Li : risk_labels !! i = Some l1)
    by (unfold risk_labels; rewrite list_lookup_fmap, Hi; reflexivity).
  assert (Lj : risk_labels !! j = Some l2)
    by (unfold risk_labels; rewrite list_lookup_fmap, Hj; reflexivity).
  split; [exact Li|]. split; [exact Lj|].
  assert (Hchain : forall up lo, leb (of_Z up) (of_Z lo) = true ->
            leb (of_Z lo) s1 = true -> ltb s2 (of_Z up) = true -> False).
  { intros up lo Hul Hlo Hup.
    pose proof (leb_trans _ _ _ (leb_trans _ _ _ Hul Hlo) Hle) as Hc.
    rewrite (leb_ltb_false _ _ Hc) in Hup. discriminate. }
  do 5 (destruct i as [|i]; [simpl in Hi; injection Hi as <- <- <-;
    do 5 (destruct j as [|j]; [simpl in Hj; injection Hj as <- <- <-;
      first [lia | exfalso; refine (Hchain _ _ _ Hlo1 Hup2); vm_compute; reflexivity]|]);
    discriminate|]).
  discriminate.
Qed.

(** X3.  A score with a risk label is shown as a number and colored by
    the colormap: it is never "N/A" and never stopped by the guard of
    [get_color]. *)
Theorem risk_label_number_and_gradient (v : PyVal) (label : string) (p : nat) :
  get_risk_category v = Ok label -> label ∈ risk_labels ->
  exists s,
    py_float v = Ok s /\
    safe_float_format v p = Ok (Fixed p s "") /\
    ltb s (of_Z 0) || gtb s (of_Z 10) = false /\
    get_color cmap v =
      try_except (cmap GRADIENT_COLORS 0 10 s) TypeError_or_ValueError (Ok "#696969").
Proof.
  intros H Hl. destruct (risk_label_source _ _ H Hl) as (s & Hf & Hc).
  destruct (first_category_bounds _ _ Hc) as [H0 H10].
  assert (Hg : ltb s (of_Z 0) || gtb s (of_Z 10) = false).
  { rewrite (leb_ltb_false _ _ H0). unfold gtb.
    change (SFltb (of_Z 10) s) with (ltb (of_Z 10) s).
    rewrite (leb_ltb_false _ _ (ltb_leb _ _ H10)). reflexivity. }
  exists s. split; [exact Hf|]. split.
  { unfold safe_float_format. destruct v; try discriminate Hf; cbn [is_None];
      rewrite Hf; reflexivity. }
  split; [exact Hg|].
  rewrite (get_color_float cmap _ _ Hf), Hg. reflexivity.
Qed.

(** X4.  A score shown as "N/A" is absent or has no float conversion, and
    then it is labelled "No Data" with the first gray, respectively
    "Invalid Data" with the second gray, whatever the colormap is. *)
Theorem na_is_sentinel (v : PyVal) (p : nat) :
  safe_float_format v p = Ok NA ->
  (v = PyNone /\ get_risk_category v = Ok "No Data" /\
   get_color cmap v = Ok "#A9A9A9") \/
  (v <> PyNone /\ (py_float v = Raise TypeError \/ py_float v = Raise ValueError) /\
   get_risk_category v = Ok "Invalid Data" /\ get_color cmap v = Ok "#696969").
Proof.
  intros H.
  assert (D : v = PyNone \/ v <> PyNone) by (destruct v; auto; right; discriminate).
  destruct D as [->|Hn].
  { left. repeat split; reflexivity. }
  right. split; [exact Hn|].
  assert (Hf : py_float v = Raise TypeError \/ py_float v = Raise ValueError).
  { unfold safe_float_format in H. destruct v; try congruence; cbn [is_None] in H;
      destruct (py_float _) as [fl|[]]; cbn [mbind PyResult_bind try_except] in H;
      try discriminate; auto. }
  split; [exact Hf|]. split.
  - apply get_risk_category_not_numeric; assumption.
  - apply get_color_not_numeric; assumption.
Qed.

End OneScore.

Lemma risk_label_monotone_witness :
  exists i j,
    risk_labels !! i = Some "No Risk" /\ risk_labels !! j = Some "High Risk" /\
    (i <= j)%nat.
Proof.
  apply (risk_label_monotone (PyInt 1) (PyStr "7.5")
           (F64.of_Z 1) (F64.div (F64.of_Z 15) (F64.of_Z 2)) "No Risk" "High Risk");
    try (vm_compute; reflexivity);
    apply list_elem_of_In; simpl; tauto.
Defined.

Lemma risk_label_number_and_gradient_witness :
  exists s,
    py_float (PyInt 5) = Ok s /\
    safe_float_format (PyInt 5) 1 = Ok (Fixed 1 s "") /\
    F64.ltb s (F64.of_Z 0) || F64.gtb s (F64.of_Z 10) = false /\
    get_color Colormap.LinearColormap (PyInt 5) =
      try_except (Colormap.LinearColormap GRADIENT_COLORS 0 10 s)
        TypeError_or_ValueError (Ok "#696969").
Proof.
  apply (risk_label_number_and_gradient Colormap.LinearColormap (PyInt 5) "Moderate Risk" 1);
    [vm_compute; reflexivity | apply list_elem_of_In; simpl; tauto].
Defined.

Lemma na_is_sentinel_witness :
  (PyStr "abc" = PyNone /\ get_risk_category (PyStr "abc") = Ok "No Data" /\
   get_color Colormap.LinearColormap (PyStr "abc") = Ok "#A9A9A9") \/
  (PyStr "abc" <> PyNone /\
   (py_float (PyStr "abc") = Raise TypeError \/ py_float (PyStr "abc") = Raise ValueError) /\
   get_risk_category (PyStr "abc") = Ok "Invalid Data" /\
   get_color Colormap.LinearColormap (PyStr "abc") = Ok "#696969").
Proof.
  apply (na_is_sentinel Colormap.LinearColormap (PyStr "abc") 1). reflexivity.
Defined.

(** ** Alert count and highest risk *)

Section Metrics.
Import F64 F64Facts.

Lemma filter_alert_cons x rest :
  length (filter is_alert (x :: rest))
  = if is_alert x then S (length (filter is_alert rest))
    else length (filter is_alert rest).
Proof.
  rewrite filter_cons. destruct (is_alert x) eqn:E.
  - rewrite decide_True by exact I. reflexivity.
  - rewrite decide_False by (intros []). reflexivity.
Qed.

Lemma alert_count_Ok scores :
  Forall convertible scores ->
  alert_count scores = Ok (length (filter is_alert scores)).
Proof.
  induction 1 as [|x rest Hx _ IH]; [reflexivity|].
  cbn [alert_count]. rewrite IH, filter_alert_cons.
  destruct Hx as [->|[f Hf]]; [reflexivity|].
  assert (Hn : is_None x = false) by (destruct x; try reflexivity; discriminate Hf).
  assert (Ha : is_alert x = gtb f ALERT_THRESHOLD)
    by (unfold is_alert; rewrite Hn, Hf; reflexivity).
  rewrite Ha, Hn, Hf. cbn [negb mbind PyResult_bind].
  destruct (gtb f ALERT_THRESHOLD); reflexivity.
Qed.

Lemma alert_count_convertible scores n :
  alert_count scores = Ok n -> Forall convertible scores.
Proof.
  revert n. induction scores as [|x rest IH]; intros n H; [constructor|].
  cbn [alert_count] in H.
  destruct (is_None x) eqn:Hn; cbn [negb] in H.
  - cbn [mbind PyResult_bind] in H.
    destruct (alert_count rest) as [k|] eqn:Ek; [|discriminate].
    constructor; [left; destruct x; try discriminate; reflexivity | eapply IH; reflexivity].
  - destruct (py_float x) as [f|] eqn:Hf; cbn [mbind PyResult_bind] in H; [|discriminate].
    destruct (alert_count rest) as [k|] eqn:Ek; [|discriminate].
    constructor; [right; eauto | eapply IH; reflexivity].
Qed.

Lemma alert_count_succeeds scores :
  Forall convertible scores <-> exists n, alert_count scores = Ok n.
Proof.
  split.
  - intros H. eexists. apply alert_count_Ok, H.
  - intros [n H]. eapply alert_count_convertible, H.
Qed.

(** X5.  The alert count is produced exactly when every score that is
    present converts to a float; it is then the number of scores that are
    present and above the threshold, at most the number of records. *)
Theorem alert_count_value (scores : list PyVal) :
  (Forall convertible scores <-> exists n, alert_count scores = Ok n) /\
  (forall n, alert_count scores = Ok n ->
     n = length (filter is_alert scores) /\ (n <= length scores)%nat).
Proof.
  split; [apply alert_count_succeeds|].
  intros n H. pose proof (alert_count_convertible _ _ H) as Hc.
  rewrite (alert_count_Ok _ Hc) in H. injection H as <-.
  split; [reflexivity | apply length_filter].
Qed.

Lemma in_upper_labels label :
  label ∈ ["Low Risk"; "Moderate Risk"; "High Risk"; "Extreme Risk"] ->
  label ∈ risk_labels /\ label <> "No Risk".
Proof.
  intros H%list_elem_of_In. simpl in H.
  split; [apply list_elem_of_In; simpl; tauto|].
  intros ->. intuition discriminate.
Qed.

(** X6.  Every record labelled Low, Moderate, High or Extreme Risk is
    counted as an alert zone, and no record labelled "No Data" is. *)
Theorem risk_labels_are_alerts (v : PyVal) (label : string) :
  get_risk_category v = Ok label ->
  (label ∈ ["Low Risk"; "Moderate Risk"; "High Risk"; "Extreme Risk"] ->
   is_alert v = true) /\
  (label = "No Data" -> is_alert v = false).
Proof.
  intros H. split.
  - intros Hu. destruct (in_upper_labels _ Hu) as [Hl Hne].
    destruct (risk_label_source _ _ H Hl) as (s & Hf & Hc).
    destruct (first_category_item _ _ Hc) as (i & lo & up & Hi & Hlo & _).
    unfold is_alert. rewrite Hf.
    assert (Hn : is_None v = false) by (destruct v; try reflexivity; discriminate Hf).
    rewrite Hn. cbn [negb andb]. unfold gtb, ALERT_THRESHOLD.
    destruct i as [|i]; [simpl in Hi; injection Hi as <- _ _; congruence|].
    do 4 (destruct i as [|i]; [simpl in Hi; injection Hi as _ <- _;
      refine (ltb_leb_trans _ _ _ _ Hlo); vm_compute; reflexivity|]).
    discriminate.
  - intros ->. unfold get_risk_category in H. unfold is_alert.
    destruct (is_None v); [reflexivity|].
    destruct (py_float v) as [s|e]; cbn [mbind PyResult_bind try_except] in H.
    + destruct (first_category RISK_CATEGORIES s) as [c|] eqn:E; [|discriminate].
      injection H as ->. apply first_category_label in E.
      apply list_elem_of_In in E. simpl in E. intuition discriminate.
    + destruct (TypeError_or_ValueError e); discriminate.
Qed.

Lemma py_max_spec rest : forall best,
  py_max best rest ∈ best :: rest /\
  (is_nan best = true -> py_max best rest = best) /\
  forall y, y ∈ best :: rest -> gtb y (py_max best rest) = false.
Proof.
  induction rest as [|x rest IH]; intros best; cbn [py_max].
  - split; [left|]. split; [reflexivity|].
    intros y Hy%list_elem_of_singleton. subst. apply ltb_irrefl.
  - destruct (IH (if gtb x best then x else best)) as (Hin & Hnan & Hmax).
    split; [|split].
    + apply elem_of_cons in Hin as [->|Hin].
      * destruct (gtb x best); [right; left | left].
      * right; right; exact Hin.
    + intros Hb. destruct (gtb x best) eqn:E.
      * apply ltb_nan in E as [E _]. congruence.
      * apply Hnan, Hb.
    + intros y Hy.
      assert (Hbest : gtb best (py_max (if gtb x best then x else best) rest) = false).
      { destruct (gtb x best) eqn:E; [|apply Hmax; left].
        pose proof (Hmax x (list_elem_of_here _ _)) as Hx. unfold gtb in *.
        destruct (SFltb (py_max x rest) best) eqn:Ec; [|reflexivity].
        change (ltb (py_max x rest) best = true) in Ec.
        change (ltb best x = true) in E.
        pose proof (ltb_leb_trans _ _ _ Ec (ltb_leb _ _ E)) as T.
        change (ltb (py_max x rest) x = false) in Hx. congruence. }
      apply elem_of_cons in Hy as [->|Hy]; [exact Hbest|].
      apply elem_of_cons in Hy as [->|Hy].
      * destruct (gtb x best) eqn:E; [apply Hmax; left|].
        destruct (is_nan best) eqn:Nb.
        { rewrite (Hnan eq_refl). exact E. }
        destruct (is_nan x) eqn:Nx.
        { destruct x; try discriminate Nx. destruct (py_max best rest); reflexivity. }
        unfold gtb in *. change (ltb best x = false) in E.
        pose proof (ltb_false_leb _ _ Nb Nx E) as Lx.
        destruct (SFltb (py_max best rest) x) eqn:Ec; [|reflexivity].
        change (ltb (py_max best rest) x = true) in Ec.
        pose proof (ltb_leb_trans _ _ _ Ec Lx) as T.
        change (ltb (py_max best rest) best = false) in Hbest. congruence.
      * apply Hmax. right. exact Hy.
Qed.

(** X7.  The highest-risk metric never raises and shows one value: the
    first greatest of the scores that are present, which no score exceeds,
    0.0 when no score is present, and "N/A" when a score that is present
    has no float conversion. *)
Theorem highest_risk_metric_value (data : GeoDataFrame) (page : list widget) :
  let present := filter (fun x => is_None x = false) (map risk_score (zones data)) in
  (mapM py_float present = Ok [] ->
     highest_risk_metric data page
       = (page ++ [st_metric HighestRisk (Fixed 1 (of_Z 0) "")], Ok tt)) /\
  (forall f rest, mapM py_float present = Ok (f :: rest) ->
     exists m,
       highest_risk_metric data page
         = (page ++ [st_metric HighestRisk (Fixed 1 m "")], Ok tt) /\
       m ∈ f :: rest /\ forall y, y ∈ f :: rest -> gtb y m = false) /\
  (forall e, mapM py_float present = Raise e ->
     highest_risk_metric data page = (page ++ [st_metric HighestRisk NA], Ok tt)).
Proof.
  cbv zeta. unfold highest_risk_metric, try_catch, mbind, Script_bind, eval.
  split; [|split].
  - intros ->. reflexivity.
  - intros f rest ->. exists (py_max f rest).
    split; [reflexivity|]. destruct (py_max_spec rest f) as (Hin & _ & Hmax). auto.
  - intros e ->. reflexivity.
Qed.

End Metrics.

Lemma risk_labels_are_alerts_witness :
  (("Low Risk" ∈ ["Low Risk"; "Moderate Risk"; "High Risk"; "Extreme Risk"]) ->
   is_alert (PyStr "3.5") = true) /\
  ("Low Risk" = "No Data" -> is_alert (PyStr "3.5") = false).
Proof.
  apply (risk_labels_are_alerts (PyStr "3.5") "Low Risk"). vm_compute. reflexivity.
Defined.

(** ** The render pass as a whole *)

Section RenderPass.

Variable cmap : list string -> Z -> Z -> spec_float -> PyResult string.
Variable area : list geometry -> PyResult (list spec_float).
Variable total : list spec_float -> spec_float.

Lemma completes_run (run : list widget * PyResult unit) :
  completes run -> run = (run.1, Ok tt).
Proof. destruct run as [page r]. unfold completes. simpl. intros ->. reflexivity. Qed.

Lemma bind_run {A B} (m : Script A) (k : A -> Script B) page :
  (m ≫= k) page
  = match m page with
    | (page', Ok a) => k a page'
    | (page', Raise e) => (page', Raise e)
    end.
Proof. reflexivity. Qed.

Lemma present_convertible scores :
  (exists floats, mapM py_float (filter (fun x => is_None x = false) scores) = Ok floats)
  <-> Forall convertible scores.
Proof.
  induction scores as [|x rest IH].
  - split; [constructor | eexists; reflexivity].
  - rewrite filter_cons. destruct (is_None x) eqn:Hx.
    + rewrite decide_False by discriminate. rewrite IH. split.
      * intros H. constructor; [left; destruct x; try discriminate; reflexivity | exact H].
      * intros H. inversion H; assumption.
    + rewrite decide_True by reflexivity. cbn [mapM]. split.
      * intros [floats H]. unfold mbind, PyResult_bind in H.
        destruct (py_float x) as [f|] eqn:Hf; [|discriminate].
        destruct (mapM py_float _) as [fl|] eqn:Hm; [|discriminate].
        constructor; [right; eauto | apply IH; eauto].
      * intros H. inversion H as [|? ? Hc Hrest]; subst.
        destruct Hc as [->|[f Hf]]; [discriminate|].
        apply IH in Hrest as [fl Hfl]. rewrite Hf. cbn [mbind PyResult_bind].
        rewrite Hfl. eexists; reflexivity.
Qed.

(** What the highest-risk metric shows. *)
Lemma highest_risk_metric_run data page :
  let present := filter (fun x => is_None x = false) (map risk_score (zones data)) in
  (mapM py_float present = Ok [] ->
     highest_risk_metric data page
       = (page ++ [st_metric HighestRisk (Fixed 1 (F64.of_Z 0) "")], Ok tt)) /\
  (forall f rest, mapM py_float present = Ok (f :: rest) ->
     highest_risk_metric data page
       = (page ++ [st_metric HighestRisk (Fixed 1 (py_max f rest) "")], Ok tt)) /\
  (forall e, mapM py_float present = Raise e ->
     highest_risk_metric data page = (page ++ [st_metric HighestRisk NA], Ok tt)).
Proof.
  cbv zeta. unfold highest_risk_metric, try_catch, mbind, Script_bind, eval.
  split; [|split]; intros; rewrite H; reflexivity.
Qed.

Lemma highest_risk_metric_shown data page :
  exists shown,
    highest_risk_metric data page = (page ++ [st_metric HighestRisk shown], Ok tt) /\
    (~ Forall convertible (map risk_score (zones data)) -> shown = NA).
Proof.
  destruct (highest_risk_metric_run data page) as (H0 & H1 & H2). cbv zeta in *.
  destruct (mapM py_float _) as [[|f rest]|e] eqn:E.
  - eexists. split; [apply H0; reflexivity|].
    intros Hn. destruct Hn. apply present_convertible. eauto.
  - eexists. split; [apply H1; reflexivity|].
    intros Hn. destruct Hn. apply present_convertible. eauto.
  - eexists. split; [apply (H2 e); reflexivity | reflexivity].
Qed.

Lemma area_metric_shown data page :
  exists shown, area_metric area total data page = (page ++ [st_metric Area shown], Ok tt).
Proof.
  unfold area_metric, try_catch, mbind, Script_bind, eval.
  destruct (negb (bool_decide (zones data = []))); cbn [mret Script_ret];
    [destruct (area _) as [areas|e]|]; eexists; reflexivity.
Qed.

(** The three panels after the metrics row never raise. *)
Lemma panels_complete data page :
  completes ((distribution_chart data ;; risk_map cmap data ;; details_table area data) page).
Proof.
  unfold mbind, Script_bind.
  rewrite (completes_run _ (distribution_chart_completes data page)).
  rewrite (completes_run _ (risk_map_completes cmap data _)).
  apply details_table_completes.
Qed.

(** The run of the main content on a frame with records: the metrics up
    to the area, then the alert count or its exception. *)
Lemma main_content_run data page :
  zones data <> [] ->
  exists highest shown_area,
    let metrics := page ++ [ st_markdown "Risk Overview";
                             st_metric TotalZones (Num (length (zones data)));
                             st_metric HighestRisk highest;
                             st_metric Area shown_area ] in
    (~ Forall convertible (map risk_score (zones data)) -> highest = NA) /\
    main_content cmap area total (Some data) page =
      match alert_count (map risk_score (zones data)) with
      | Ok n =>
          (distribution_chart data ;; risk_map cmap data ;; details_table area data)
            (metrics ++ [st_metric AlertZones (Num n)])
      | Raise e => (metrics, Raise e)
      end.
Proof.
  intros Hne. unfold main_content. rewrite bool_decide_eq_false_2 by exact Hne.
  cbn [negb].
  destruct (highest_risk_metric_shown data
              ((page ++ [st_markdown "Risk Overview"]) ++
               [st_metric TotalZones (Num (length (zones data)))]))
    as (highest & Hh & Hna).
  destruct (area_metric_shown data
              (((page ++ [st_markdown "Risk Overview"]) ++
                [st_metric TotalZones (Num (length (zones data)))]) ++
               [st_metric HighestRisk highest]))
    as (shown_area & Ha).
  exists highest, shown_area. cbv zeta. split; [exact Hna|].
  rewrite bind_run. cbn [show]. rewrite bind_run. unfold total_zones_metric. cbn [show].
  rewrite bind_run, Hh, bind_run, Ha, bind_run.
  unfold alert_zones_metric. rewrite bind_run. unfold eval.
  rewrite <- !app_assoc. cbn [app].
  destruct (alert_count (map risk_score (zones data))); cbn [show];
    rewrite <- ?app_assoc; reflexivity.
Qed.

(** X8.  On a frame with records, the render pass runs to its end exactly
    when every score that is present converts to a float. *)
Theorem main_content_completes_iff (data : GeoDataFrame) (page : list widget) :
  zones data <> [] ->
  (completes (main_content cmap area total (Some data) page)
   <-> Forall convertible (map risk_score (zones data))).
Proof.
  intros Hne. destruct (main_content_run data page Hne) as (h & a & _ & ->).
  rewrite alert_count_succeeds.
  destruct (alert_count (map risk_score (zones data))) as [n|e].
  - split; [eauto | intros _; apply panels_complete].
  - split; [discriminate | intros [n H]; discriminate].
Qed.

(** X9.  When a score that is present has no float conversion, the render
    pass stops with the exception of [float]; the page then holds the
    heading, the zone count, "N/A" as highest risk and the area, and no
    chart, map or table. *)
Theorem main_content_stops_before_panels (data : GeoDataFrame) (page : list widget) :
  zones data <> [] ->
  ~ Forall convertible (map risk_score (zones data)) ->
  exists shown_area e x,
    main_content cmap area total (Some data) page
      = (page ++ [ st_markdown "Risk Overview";
                   st_metric TotalZones (Num (length (zones data)));
                   st_metric HighestRisk NA;
                   st_metric Area shown_area ], Raise e) /\
    x ∈ map risk_score (zones data) /\ x <> PyNone /\ py_float x = Raise e.
Proof.
  intros Hne Hnc. destruct (main_content_run data page Hne) as (h & a & Hna & ->).
  rewrite (Hna Hnc). exists a.
  destruct (alert_count (map risk_score (zones data))) as [n|e] eqn:E.
  { destruct Hnc. apply alert_count_succeeds. eauto. }
  exists e. clear -E. induction (map risk_score (zones data)) as [|y l IH];
    [discriminate|].
  cbn [alert_count] in E. destruct (is_None y) eqn:Hy; cbn [negb] in E.
  - cbn [mbind PyResult_bind] in E.
    destruct (alert_count l) as [k|e'] eqn:Ek; [discriminate|].
    injection E as <-. destruct (IH eq_refl) as (x & Hq & Hx).
    exists x. split; [exact Hq|]. split; [right; apply Hx | apply Hx].
  - destruct (py_float y) as [f|e'] eqn:Hf; cbn [mbind PyResult_bind] in E.
    + destruct (alert_count l) as [k|e''] eqn:Ek; [discriminate|].
      injection E as <-. destruct (IH eq_refl) as (x & Hq & Hx).
      exists x. split; [exact Hq|]. split; [right; apply Hx | apply Hx].
    + injection E as <-. exists y. split; [reflexivity|].
      split; [left | split; [intros ->; discriminate | exact Hf]].
Qed.

Lemma mapM_Raise {A B} (f : A -> PyResult B) l e :
  mapM f l = Raise e -> exists x, x ∈ l /\ f x = Raise e.
Proof.
  induction l as [|x l IH]; cbn [mapM]; [discriminate|].
  destruct (f x) as [y|e'] eqn:Ey; cbn [mbind PyResult_bind].
  - destruct (mapM f l) as [ys|e''] eqn:Em; [discriminate|].
    intros H; injection H as <-. destruct (IH eq_refl) as (z & Hz & Hf).
    exists z. split; [right; exact Hz | exact Hf].
  - intros H; injection H as <-. exists x. split; [left | exact Ey].
Qed.

Lemma map_shape_Ok z sh :
  map_shape cmap z = Ok sh -> drawn cmap z sh.
Proof.
  unfold map_shape, drawn.
  destruct (safe_float_format (risk_score z) 1) as [t|]; cbn [mbind PyResult_bind];
    [|discriminate].
  destruct (get_color cmap (risk_score z)) as [c|]; cbn [mbind PyResult_bind];
    [|discriminate].
  intros H; injection H as <-. repeat split.
Qed.

Lemma map_shape_Raise z e :
  map_shape cmap z = Raise e ->
  safe_float_format (risk_score z) 1 = Raise e \/ get_color cmap (risk_score z) = Raise e.
Proof.
  unfold map_shape.
  destruct (safe_float_format (risk_score z) 1) as [t|]; cbn [mbind PyResult_bind].
  - destruct (get_color cmap (risk_score z)) as [c|]; cbn [mbind PyResult_bind];
      [discriminate | intros H; injection H as ->; right; reflexivity].
  - intros H. injection H as ->. left. reflexivity.
Qed.

(** X10.  The map panel never raises.  It shows its heading and then
    either the map, with one shape per record in the order of the records,
    each with the record's geometry and category, the formatted score and
    the color of [get_color], or an error naming the exception that the
    formatting or the coloring of some record raised. *)
Theorem risk_map_shapes (data : GeoDataFrame) (page : list widget) :
  exists w,
    risk_map cmap data page = (page ++ [st_markdown "Live Risk Map"; w], Ok tt) /\
    ((exists shapes,
        w = folium_static shapes /\ Forall2 (drawn cmap) (zones data) shapes) \/
     (exists e z,
        w = st_error (MsgExn "Map rendering error: " e) /\ z ∈ zones data /\
        (safe_float_format (risk_score z) 1 = Raise e \/
         get_color cmap (risk_score z) = Raise e))).
Proof.
  unfold risk_map. rewrite bind_run. cbn [show]. unfold try_catch.
  rewrite bind_run. unfold eval.
  destruct (mapM (map_shape cmap) (zones data)) as [shapes|e] eqn:E.
  - exists (folium_static shapes). cbn [show]. rewrite <- app_assoc.
    split; [reflexivity|]. left. exists shapes. split; [reflexivity|].
    apply mapM_Ok in E. eapply Forall2_impl; [exact E|]. apply map_shape_Ok.
  - exists (st_error (MsgExn "Map rendering error: " e)).
    unfold any_Exception, show. rewrite <- app_assoc. split; [reflexivity|]. right.
    destruct (mapM_Raise _ _ _ E) as (z & Hz & Hr).
    exists e, z. split; [reflexivity|]. split; [exact Hz | apply map_shape_Raise, Hr].
Qed.

End RenderPass.

Lemma main_content_completes_iff_witness :
  zones sample_frame <> [] /\
  (completes (main_content Colormap.LinearColormap sample_area sample_sum
                (Some sample_frame) [])
   <-> Forall convertible (map risk_score (zones sample_frame))).
Proof.
  assert (H : zones sample_frame <> []) by discriminate.
  split; [exact H|].
  apply (main_content_completes_iff Colormap.LinearColormap sample_area sample_sum
           sample_frame [] H).
Defined.

Lemma main_content_stops_before_panels_witness :
  exists shown_area e x,
    main_content Colormap.LinearColormap sample_area sample_sum
      (Some text_score_frame) []
      = ([ st_markdown "Risk Overview";
           st_metric TotalZones (Num (length (zones text_score_frame)));
           st_metric HighestRisk NA;
           st_metric Area shown_area ], Raise e) /\
    x ∈ map risk_score (zones text_score_frame) /\ x <> PyNone /\ py_float x = Raise e.
Proof.
  apply (main_content_stops_before_panels Colormap.LinearColormap sample_area
           sample_sum text_score_frame []).
  - discriminate.
  - intros H. inversion H as [|? ? Hc _]. destruct Hc as [Hc|[f Hc]]; discriminate Hc.
Defined.

(** ** More on loading *)

Section Loading.

Lemma get_risk_category_Raise v e :
  get_risk_category v = Raise e -> e = OverflowError.
Proof.
  unfold get_risk_category. destruct (is_None v); [discriminate|].
  destruct (py_float v) as [s|e'] eqn:Ef; cbn [mbind PyResult_bind try_except].
  - destruct (first_category RISK_CATEGORIES s); discriminate.
  - destruct (py_float_raises _ _ Ef) as [[-> _]|[[-> _]|[-> _]]];
      cbn [TypeError_or_ValueError]; try discriminate.
    intros H; injection H as <-. reflexivity.
Qed.

Lemma mapM_Raise_intro {A B} (f : A -> PyResult B) l x e :
  x ∈ l -> f x = Raise e -> exists e', mapM f l = Raise e'.
Proof.
  intros Hx Hf. destruct (mapM f l) as [ys|e'] eqn:E; [|eauto].
  apply mapM_Ok in E. apply list_elem_of_lookup in Hx as [i Hi].
  destruct (Forall2_lookup_l _ _ _ _ _ E Hi) as (y & _ & Hy). congruence.
Qed.

Lemma zip_with_scores (fts : list feature) cats :
  length fts = length cats ->
  map risk_score
    (zip_with (fun ft c => Zone (feature_score ft) (feature_geometry ft) c) fts cats)
  = map feature_score fts /\
  map zone_geometry
    (zip_with (fun ft c => Zone (feature_score ft) (feature_geometry ft) c) fts cats)
  = map feature_geometry fts.
Proof.
  revert cats. induction fts as [|ft fts IH]; intros [|c cats] H;
    simpl in *; try discriminate; auto.
  destruct (IH cats) as [-> ->]; [lia | auto].
Qed.

(** The columns of a file that loads. *)
Lemma load_latest_data_columns fs data t n e latest p :
  load_latest_data fs = (Some data, t, n, e) ->
  latest_file fs = Some latest -> read_file latest = Ok p ->
  "risk_score" ∈ parsed_columns p /\ "geometry" ∈ parsed_columns p.
Proof.
  unfold load_latest_data. intros H Hl Hr.
  destruct (exists_DATA_DIR fs); cbn [negb] in H; [|discriminate].
  rewrite Hl, Hr in H. cbn [mbind PyResult_bind forallb] in H.
  rewrite andb_true_r in H.
  destruct (bool_decide ("risk_score" ∈ parsed_columns p)) eqn:E1;
    cbn [andb negb] in H; [|discriminate].
  destruct (bool_decide ("geometry" ∈ parsed_columns p)) eqn:E2;
    cbn [negb] in H; [|discriminate].
  split; eapply bool_decide_eq_true_1; eassumption.
Qed.

(** X11.  A successful load keeps every record of the selected file, in
    order, with its score and its geometry, adds the category column, and
    only happens for a file that has the score and geometry columns. *)
Theorem loaded_frame_keeps_records (fs : filesystem) (data : GeoDataFrame)
    (t : option Z) (n : option string) (e : option message) :
  load_latest_data fs = (Some data, t, n, e) ->
  exists latest p,
    latest_file fs = Some latest /\ read_file latest = Ok p /\
    "risk_score" ∈ parsed_columns p /\ "geometry" ∈ parsed_columns p /\
    columns data = parsed_columns p ++ ["risk_category"] /\
    map risk_score (zones data) = map feature_score (parsed_features p) /\
    map zone_geometry (zones data) = map feature_geometry (parsed_features p).
Proof.
  intros H. destruct (load_latest_data_Some _ _ _ _ _ H)
    as (latest & p & cats & _ & Hl & Hr & Hc & Hd & _).
  destruct (load_latest_data_columns _ _ _ _ _ _ _ H Hl Hr) as [C1 C2].
  exists latest, p. subst data. cbn [columns zones].
  apply mapM_Ok, Forall2_length in Hc.
  destruct (zip_with_scores (parsed_features p) cats Hc) as [-> ->].
  repeat split; trivial.
Qed.

(** X12.  Once a file is selected, a parse failure, a missing score or
    geometry column, and a score too large for a float each turn the whole
    load into an error: the exception of the parser, the fixed text about
    missing columns, and [OverflowError]. *)
Theorem selected_file_failures (fs : filesystem) (latest : file) :
  exists_DATA_DIR fs = true -> latest_file fs = Some latest ->
  (forall e, read_file latest = Raise e ->
     load_latest_data fs = (None, None, None, Some (MsgExn "Error loading data: " e))) /\
  (forall p, read_file latest = Ok p ->
     "risk_score" ∉ parsed_columns p \/ "geometry" ∉ parsed_columns p ->
     load_latest_data fs
       = (None, None, None, Some (Msg "Missing required columns in data"))) /\
  (forall p ft e, read_file latest = Ok p ->
     "risk_score" ∈ parsed_columns p -> "geometry" ∈ parsed_columns p ->
     ft ∈ parsed_features p -> get_risk_category (feature_score ft) = Raise e ->
     load_latest_data fs
       = (None, None, None, Some (MsgExn "Error loading data: " OverflowError))).
Proof.
  intros Hd Hl. unfold load_latest_data. rewrite Hd, Hl. cbn [negb].
  split; [|split].
  - intros e ->. reflexivity.
  - intros p -> Hm. cbn [mbind PyResult_bind forallb]. rewrite andb_true_r.
    destruct Hm as [Hm|Hm].
    + rewrite (bool_decide_eq_false_2 _ Hm). reflexivity.
    + rewrite (bool_decide_eq_false_2 _ Hm), andb_false_r. reflexivity.
  - intros p ft e -> C1 C2 Hft He. cbn [mbind PyResult_bind forallb].
    rewrite !(bool_decide_eq_true_2 _ C1), (bool_decide_eq_true_2 _ C2).
    cbn [andb negb].
    destruct (mapM_Raise_intro (fun ft => get_risk_category (feature_score ft))
                _ _ _ Hft He) as [e' He'].
    rewrite He'. destruct (mapM_Raise _ _ _ He') as (ft' & _ & Hr).
    apply get_risk_category_Raise in Hr. subst e'. reflexivity.
Qed.

Lemma max_by_key_first {A} (key : A -> Z) rest : forall best,
  exists before after,
    best :: rest = before ++ max_by_key key best rest :: after /\
    Forall (fun x => key x < key (max_by_key key best rest)) before /\
    Forall (fun x => key x <= key (max_by_key key best rest)) after.
Proof.
  induction rest as [|y rest IH]; intros best; cbn [max_by_key].
  - exists [], []. repeat split; constructor.
  - destruct (Z.ltb_spec (key best) (key y)) as [Hlt|Hge].
    + destruct (IH y) as (pre & post & E & Hpre & Hpost).
      destruct (max_by_key_spec key rest y) as [_ Hmax].
      pose proof (Hmax y (list_elem_of_here _ _)) as Hy.
      set (m := max_by_key key y rest) in *.
      exists (best :: pre), post. split; [simpl; f_equal; exact E|].
      split; [|exact Hpost]. constructor; [lia | exact Hpre].
    + destruct (IH best) as (pre & post & E & Hpre & Hpost).
      set (m := max_by_key key best rest) in *.
      destruct pre as [|b pre]; simpl in E; injection E as Eb Er.
      * exists [], (y :: rest). split; [simpl; f_equal; exact Eb|].
        split; [constructor|]. constructor; [rewrite <- Eb; lia|].
        rewrite Er. exact Hpost.
      * subst b. exists (best :: y :: pre), post.
        split; [simpl; do 2 f_equal; exact Er|]. split; [|exact Hpost].
        apply Forall_cons in Hpre as [Hb Hrest].
        constructor; [exact Hb|]. constructor; [lia | exact Hrest].
Qed.

(** X13.  Among the candidate files created at the same latest time, the
    one that comes first in the listing is selected: every candidate
    before the selected file is strictly older, every one after it is not
    newer. *)
Theorem latest_file_first_of_ties (fs : filesystem) (latest : file) :
  latest_file fs = Some latest ->
  exists before after,
    candidate_files fs = before ++ latest :: after /\
    Forall (fun f => getctime f < getctime latest) before /\
    Forall (fun f => getctime f <= getctime latest) after.
Proof.
  unfold latest_file. destruct (candidate_files fs) as [|f rest]; [discriminate|].
  intros H; injection H as <-. apply max_by_key_first.
Qed.

End Loading.

Lemma loaded_frame_keeps_records_witness :
  exists latest p,
    latest_file sample_dir = Some latest /\ read_file latest = Ok p /\
    "risk_score" ∈ parsed_columns p /\ "geometry" ∈ parsed_columns p /\
    columns sample_frame = parsed_columns p ++ ["risk_category"] /\
    map risk_score (zones sample_frame) = map feature_score (parsed_features p) /\
    map zone_geometry (zones sample_frame) = map feature_geometry (parsed_features p).
Proof.
  apply (loaded_frame_keeps_records sample_dir sample_frame
           (Some 9) (Some "new.geojson") None).
  vm_compute. reflexivity.
Defined.

Lemma selected_file_failures_witness :
  load_latest_data broken_dir
    = (None, None, None,
       Some (MsgExn "Error loading data: " (OtherException "DataSourceError"))) /\
  load_latest_data no_score_dir
    = (None, None, None, Some (Msg "Missing required columns in data")) /\
  load_latest_data huge_score_dir
    = (None, None, None, Some (MsgExn "Error loading data: " OverflowError)).
Proof.
  split; [|split].
  - apply (proj1 (selected_file_failures broken_dir
                    (File "x.geojson" 4 1 (Raise (OtherException "DataSourceError")))
                    eq_refl eq_refl)).
    reflexivity.
  - apply (proj1 (proj2 (selected_file_failures no_score_dir
                           (File "x.geojson" 4 1 (Ok (Parsed ["geometry"] [])))
                           eq_refl eq_refl))
             (Parsed ["geometry"] [])); [reflexivity|].
    left. intros H%list_elem_of_In. simpl in H. intuition discriminate.
  - apply (proj2 (proj2 (selected_file_failures huge_score_dir
                           (File "x.geojson" 4 1
                              (Ok (Parsed ["risk_score"; "geometry"]
                                     [Feature (PyInt (2 ^ 1024)) (Geometry "POLYGON EMPTY")])))
                           eq_refl eq_refl))
             (Parsed ["risk_score"; "geometry"]
                [Feature (PyInt (2 ^ 1024)) (Geometry "POLYGON EMPTY")])
             (Feature (PyInt (2 ^ 1024)) (Geometry "POLYGON EMPTY")) OverflowError);
      [reflexivity | left | right; left | left | vm_compute; reflexivity].
Defined.

Lemma latest_file_first_of_ties_witness :
  latest_file tied_dir = Some (File "b.geojson" 4 8 (Ok sample_records)) /\
  exists before after,
    candidate_files tied_dir
      = before ++ File "b.geojson" 4 8 (Ok sample_records) :: after /\
    Forall (fun f => getctime f < 8) before /\
    Forall (fun f => getctime f <= 8) after.
Proof.
  assert (H : latest_file tied_dir = Some (File "b.geojson" 4 8 (Ok sample_records)))
    by reflexivity.
  split; [exact H|]. apply (latest_file_first_of_ties tied_dir _ H).
Defined.

(** ** More on the chart, the table and the page *)

Section ChartTablePage.
Import F64 F64Facts.

Lemma indicator_sum_absent (x : string) index :
  x ∉ index ->
  sum_list (map (fun c => if bool_decide (x = c) then 1%nat else 0%nat) index) = 0%nat.
Proof.
  induction index as [|c index IH]; intros Hx; [reflexivity|].
  apply not_elem_of_cons in Hx as [Hne Hx]. simpl.
  rewrite bool_decide_eq_false_2 by exact Hne. apply IH, Hx.
Qed.

Lemma occurrences_sum_known (labels index : list string) :
  NoDup index ->
  sum_list (map (fun c => occurrences c labels) index)
  = length (filter (fun x => x ∈ index) labels).
Proof.
  intros Hnd. induction labels as [|x rest IH]; simpl.
  - induction index as [|c index IHi]; simpl; trivial.
    apply IHi. apply NoDup_cons in Hnd. apply Hnd.
  - rewrite sum_list_map_add, IH, filter_cons.
    destruct (decide (x ∈ index)) as [Hx|Hx].
    + rewrite (indicator_sum x index Hnd Hx). reflexivity.
    + rewrite (indicator_sum_absent x index Hx). reflexivity.
Qed.

Lemma filter_category_length (zs : list zone) (index : list string) :
  length (filter (fun x => x ∈ index) (map risk_category zs))
  = length (filter (fun z => risk_category z ∈ index) zs).
Proof.
  induction zs as [|z zs IH]; [reflexivity|].
  simpl. rewrite !filter_cons.
  destruct (decide (risk_category z ∈ index)); simpl; rewrite IH; reflexivity.
Qed.

(** X14.  For any frame, the counts of the chart add up to the number of
    records whose category is one of the seven labels: a record with
    another category is left out of the chart. *)
Theorem risk_counts_known_labels (data : GeoDataFrame) :
  sum_list (map snd (risk_counts data))
  = length (filter (fun z => risk_category z ∈ all_categories) (zones data)).
Proof.
  unfold risk_counts. rewrite reindex_counts.
  rewrite (occurrences_sum_known _ _ all_categories_NoDup).
  apply filter_category_length.
Qed.

Lemma sort_key_absent_or_number v k :
  sort_key v = Ok k -> (v = PyNone /\ k = of_Z (-1)) \/ py_float v = Ok k.
Proof.
  unfold sort_key. destruct v; cbn [is_None negb]; auto.
  intros H; injection H as <-. auto.
Qed.


(** A record with a label other than "Invalid Data" has no score or a
    score of at least 0. *)
Lemma valid_label_score v c :
  get_risk_category v = Ok c -> c <> "Invalid Data" ->
  v = PyNone \/ exists s, py_float v = Ok s /\ leb (of_Z 0) s = true.
Proof.
  intros H Hc. unfold get_risk_category in H.
  destruct (is_None v) eqn:Hn; [left; destruct v; try discriminate; reflexivity|].
  right. destruct (py_float v) as [s|e]; cbn [mbind PyResult_bind try_except] in H.
  - exists s. split; [reflexivity|].
    destruct (first_category RISK_CATEGORIES s) as [c'|] eqn:E.
    + apply (first_category_bounds _ _ E).
    + injection H as <-. congruence.
  - destruct (TypeError_or_ValueError e); [|discriminate].
    injection H as <-. congruence.
Qed.

(** X16.  When no record is labelled "Invalid Data", the table is
    produced and every record without a score stands after all records
    with a number. *)
Theorem absent_last_without_invalid (data : GeoDataFrame) :
  "risk_score" ∈ columns data ->
  Forall (fun z => get_risk_category (risk_score z) = Ok (risk_category z) /\
                   risk_category z <> "Invalid Data") (zones data) ->
  exists rows, display_data data = Ok rows /\ absent_after (fun _ => True) rows.
Proof.
  intros Hcol Hall.
  assert (Hv : Forall (fun z => risk_score z = PyNone \/
                 exists s, py_float (risk_score z) = Ok s /\ leb (of_Z 0) s = true)
                 (zones data)).
  { eapply Forall_impl; [exact Hall|]. intros z [Hz Hc]. eapply valid_label_score; eauto. }
  assert (Hk : Forall (fun z => exists k, sort_key (risk_score z) = Ok k) (zones data)).
  { eapply Forall_impl; [exact Hv|]. intros z [Hz|(s & Hs & _)].
    - rewrite Hz. eexists; reflexivity.
    - exists s. unfold sort_key. destruct (risk_score z); try discriminate Hs; exact Hs. }
  destruct (mapM_Ok_intro (fun z => sort_key (risk_score z)) (zones data) Hk) as [keys Hkeys].
  assert (Hd : exists rows, display_data data = Ok rows).
  { unfold display_data. rewrite bool_decide_eq_true_2 by exact Hcol.
    rewrite Hkeys. eexists; reflexivity. }
  destruct Hd as [rows Hrows]. exists rows. split; [exact Hrows|].
  destruct (display_data_Ok _ _ Hcol Hrows) as (sorted & -> & Hkd & Hs & Hp).
  pose proof (descending_absent_after _ (sorted_descending _ Hkd Hs)) as Ha.
  intros i j zi zj s Hi Hj Hnone Hf _.
  apply (Ha i j zi zj s Hi Hj Hnone Hf).
  assert (Hin : zj ∈ zones data).
  { rewrite <- Hp. eapply list_elem_of_lookup_2, Hj. }
  rewrite Forall_forall in Hv. destruct (Hv _ Hin) as [Hz|(s' & Hs' & H0)].
  - rewrite Hz in Hf. discriminate.
  - assert (s' = s) by congruence. subst s'.
    refine (ltb_leb_trans _ _ _ _ H0). vm_compute. reflexivity.
Qed.

Variable cmap : list string -> Z -> Z -> spec_float -> PyResult string.
Variable area : list geometry -> PyResult (list spec_float).
Variable total : list spec_float -> spec_float.
Variable since : Z -> spec_float.

(** A load ends with a non-empty error text alone, or with data, time and
    a non-empty file name. *)
Lemma load_latest_data_shape fs :
  (exists msg, load_latest_data fs = (None, None, None, Some msg) /\
               message_truthy msg = true) \/
  (exists d t f, load_latest_data fs = (Some d, Some t, Some f, None) /\
                 String.eqb f "" = false).
Proof.
  unfold load_latest_data.
  destruct (exists_DATA_DIR fs); cbn [negb]; [|left; eexists; split; reflexivity].
  destruct (latest_file fs) as [latest|] eqn:El; [|left; eexists; split; reflexivity].
  destruct (read_file latest) as [p|]; cbn [mbind PyResult_bind];
    [|left; eexists; split; reflexivity].
  destruct (negb _); [left; eexists; split; reflexivity|].
  destruct (bool_decide _).
  - destruct (mapM _ _); cbn [mbind PyResult_bind];
      [|left; eexists; split; reflexivity].
    right. do 3 eexists. split; [reflexivity|].
    apply latest_file_Some in El as (_ & [He _] & _).
    destruct (name latest); [discriminate He | reflexivity].
  - cbn [mbind PyResult_bind]. right. do 3 eexists. split; [reflexivity|].
    apply latest_file_Some in El as (_ & [He _] & _).
    destruct (name latest); [discriminate He | reflexivity].
Qed.

(** X17.  A click on the refresh button ends the run with a rerun.
    Otherwise a failed load shows its error, prefixed, and stops before
    any panel; a successful load shows the status row and then the main
    content; the warning that no data files are available is never
    shown. *)
Theorem dashboard_outcomes (fs : filesystem) :
  dashboard cmap area total since fs true = Rerun /\
  (forall w, dashboard cmap area total since fs false <> StoppedOnWarning w) /\
  (forall d t n msg, load_latest_data fs = (d, t, n, Some msg) ->
     dashboard cmap area total since fs false
       = StoppedOnError (prefixed "Data Error: " msg)) /\
  (forall d t f, load_latest_data fs = (Some d, Some t, Some f, None) ->
     dashboard cmap area total since fs false
       = Rendered [LastUpdate t; DataAge (div (since t) (of_Z 60)); FileName f]
           (main_content cmap area total (Some d) [])).
Proof.
  unfold dashboard.
  destruct (load_latest_data_shape fs) as [(msg & -> & Ht)|(d & t & f & -> & Hf)].
  - split; [reflexivity|]. cbn [true_error]. rewrite Ht.
    split; [discriminate|]. split; [|discriminate].
    intros d t n msg' H. injection H as <- <- <- <-. reflexivity.
  - split; [reflexivity|]. cbn [true_error]. rewrite Hf. cbn [negb].
    split; [discriminate|]. split; [discriminate|].
    intros d' t' f' H. injection H as <- <- <-. reflexivity.
Qed.

End ChartTablePage.


Lemma absent_last_without_invalid_witness :
  exists rows, display_data unsorted_frame = Ok rows /\ absent_after (fun _ => True) rows.
Proof.
  apply (absent_last_without_invalid unsorted_frame (list_elem_of_here _ _)).
  repeat constructor; try (vm_compute; reflexivity); discriminate.
Defined.

(** ** The rows of the table *)

Section TableRows.

Variable area : list geometry -> PyResult (list spec_float).

Lemma zip_rows (b : bool) (zs : list zone) shown : forall areas,
  Forall2 (fun z t => (if negb (is_None (risk_score z))
                       then safe_float_format (risk_score z) 1
                       else Ok NA) = Ok t) zs shown ->
  length areas = length zs ->
  Forall2 (row_of b) zs
    (zip_with (fun '(z, s) a =>
                 Row s (F64.div a (F64.of_Z 1000000))
                   (if b then Some (risk_category z) else None))
       (zip zs shown) areas).
Proof.
  intros areas H. revert areas.
  induction H as [|z t zs shown Ht _ IH]; intros areas Hlen.
  - constructor.
  - destruct areas as [|a areas]; [discriminate|]. simpl. constructor.
    + unfold row_of. cbn [risk_score_display row_category]. split; [|split].
      * intros Hn. rewrite Hn in Ht. cbn in Ht. congruence.
      * intros s Hs. unfold safe_float_format in Ht.
        destruct (risk_score z); try discriminate Hs; cbn [is_None negb] in Ht;
          rewrite Hs in Ht; cbn in Ht; congruence.
      * reflexivity.
    + apply IH. simpl in Hlen. lia.
Qed.

(** X18.  With a geometry package that gives one area per geometry, the
    table panel shows, whenever the rows can be sorted, one table row per
    record in display order: "N/A" for an absent score, the score as a
    number otherwise, and the record's category. *)
Theorem details_table_rows (data : GeoDataFrame) (sorted : list zone)
    (page : list widget) :
  one_area_each area -> "risk_score" ∈ columns data ->
  display_data data = Ok sorted ->
  exists rows,
    details_table area data page
      = (page ++ [st_markdown "Risk Zone Details"; st_dataframe rows], Ok tt) /\
    Forall2 (row_of (bool_decide ("risk_category" ∈ columns data))) sorted rows.
Proof.
  intros Harea Hcol Hd.
  destruct (display_data_Ok _ _ Hcol Hd) as (keyed_rows & Hs & Hk & _ & _).
  assert (Hfmt : Forall (fun z => exists t,
            (if negb (is_None (risk_score z))
             then safe_float_format (risk_score z) 1 else Ok NA) = Ok t) sorted).
  { subst sorted. apply Forall_fmap. eapply Forall_impl; [exact Hk|].
    intros [k z] Hz. unfold keyed in Hz. simpl in Hz. simpl.
    destruct (sort_key_absent_or_number _ _ Hz) as [[-> _]|Hf].
    - eexists; reflexivity.
    - unfold safe_float_format.
      destruct (risk_score z) eqn:Ez; try discriminate Hf; cbn [is_None negb];
        rewrite Hf; eexists; reflexivity. }
  destruct (mapM_Ok_intro _ _ Hfmt) as [shown Hshown].
  destruct (Harea (map zone_geometry sorted)) as (areas & Ha & Hlen).
  rewrite length_map in Hlen.
  eexists. split.
  - unfold details_table. rewrite bind_run. unfold show at 1, try_catch.
    rewrite bind_run. unfold eval at 1. rewrite Hd, bind_run. unfold eval, table_rows.
    rewrite Ha. cbn [mbind PyResult_bind]. rewrite Hshown. cbn [mbind PyResult_bind].
    unfold show. rewrite <- app_assoc. reflexivity.
  - apply zip_rows; [apply mapM_Ok, Hshown | exact Hlen].
Qed.

End TableRows.

Lemma details_table_rows_witness :
  exists rows,
    details_table sample_area unsorted_frame []
      = ([st_markdown "Risk Zone Details"; st_dataframe rows], Ok tt) /\
    Forall2 (row_of (bool_decide ("risk_category" ∈ columns unsorted_frame)))
      [ Zone (PyFloat (F64.of_Z 7)) (Geometry "C") "High Risk";
        Zone (PyInt 3) (Geometry "A") "Low Risk";
        Zone PyNone (Geometry "B") "No Data" ]
      rows.
Proof.
  apply (details_table_rows sample_area unsorted_frame _ []).
  - intros l. exists (map (fun _ => F64.of_Z 0) l).
    split; [reflexivity | apply length_map].
  - left.
  - vm_compute. reflexivity.
Defined.
